(** * ai_cv_vertetajs: a shallow embedding of the CV evaluation pipeline

    The program reads a job description and candidate CVs from text files,
    builds a prompt per candidate, calls a completion service, and writes a
    JSON file and a Markdown report per candidate.

    Python [str] values are sequences of Unicode code points, so a text is a
    [list N] here; string literals of the source are written as UTF-8
    literals and decoded by [lit].

    The program is stateful and can raise, so its functions live in a state
    and exception monad [M] over a [world]: the file system, the console,
    the log of the files written, and counters for the calls of the
    completion client and the readings of the clock.  An exception keeps
    the world it was raised in, so what was written before it stays
    written.

    The completion service, the constructor of its client, the JSON codec,
    [repr] of strings and the clock are external collaborators and are
    taken as parameters ([Env]).  The file system is a finite map from
    paths to entries: a text file, a file whose bytes are not UTF-8 text,
    or an entry that cannot be opened (a directory, a file without
    permission).  Reading translates the line ends as Python's text mode
    does; writing a text with a lone surrogate fails after the file was
    emptied by opening it.  The directories the program writes into exist
    (it creates them when it is loaded), and the console takes every
    string.  The exception classes are the ones the program can meet, all
    of them subclasses of [Exception]. *)

From Stdlib Require Import ZArith NArith List String Ascii DecimalString.
From stdpp Require Import base option list gmap.

Local Open Scope N_scope.
Local Open Scope list_scope.

(** ** Python strings *)

Definition pystr := list N.

(** Decoding of the UTF-8 bytes of a source literal into code points. *)
Fixpoint utf8_decode (bs : list N) : pystr :=
  match bs with
  | [] => []
  | b0 :: r0 =>
    if b0 <? 0x80 then b0 :: utf8_decode r0
    else if b0 <? 0xE0 then
      match r0 with
      | b1 :: r1 =>
        N.lor (N.shiftl (N.land b0 0x1F) 6) (N.land b1 0x3F) :: utf8_decode r1
      | _ => []
      end
    else if b0 <? 0xF0 then
      match r0 with
      | b1 :: b2 :: r2 =>
        N.lor (N.shiftl (N.land b0 0x0F) 12)
          (N.lor (N.shiftl (N.land b1 0x3F) 6) (N.land b2 0x3F))
        :: utf8_decode r2
      | _ => []
      end
    else
      match r0 with
      | b1 :: b2 :: b3 :: r3 =>
        N.lor (N.shiftl (N.land b0 0x07) 18)
          (N.lor (N.shiftl (N.land b1 0x3F) 12)
             (N.lor (N.shiftl (N.land b2 0x3F) 6) (N.land b3 0x3F)))
        :: utf8_decode r3
      | _ => []
      end
  end.

Definition lit (s : string) : pystr :=
  utf8_decode (List.map N_of_ascii (list_ascii_of_string s)).

(** The two characters that cannot be written inside a literal here. *)
Definition NL : pystr := [10].
Definition DQ : pystr := [34].

(** [str.isspace] for one character: the characters [str.strip()] removes. *)
Definition isspace (c : N) : bool :=
  ((0x09 <=? c) && (c <=? 0x0D)) || ((0x1C <=? c) && (c <=? 0x20))
  || (c =? 0x85) || (c =? 0xA0) || (c =? 0x1680)
  || ((0x2000 <=? c) && (c <=? 0x200A))
  || (c =? 0x2028) || (c =? 0x2029) || (c =? 0x202F) || (c =? 0x205F)
  || (c =? 0x3000).

Fixpoint lstrip (s : pystr) : pystr :=
  match s with
  | [] => []
  | c :: s' => if isspace c then lstrip s' else s
  end.

Fixpoint rstrip (s : pystr) : pystr :=
  match s with
  | [] => []
  | c :: s' =>
    match rstrip s' with
    | [] => if isspace c then [] else [c]
    | r => c :: r
    end
  end.

(** [s.strip()] *)
Definition strip (s : pystr) : pystr := rstrip (lstrip s).

(** The code points that UTF-8 cannot encode: the surrogates.  A [str]
    holds one whenever a JSON text spells it as an escape. *)
Definition is_surrogate (c : N) : bool := (0xD800 <=? c) && (c <=? 0xDFFF).

(** [s.encode("utf-8")] succeeds. *)
Definition utf8 (s : pystr) : bool := forallb (fun c => negb (is_surrogate c)) s.

(** What reading in text mode makes of the line ends: a carriage return,
    alone or followed by a line feed, becomes one line feed. *)
Fixpoint universal_newlines (s : pystr) : pystr :=
  match s with
  | [] => []
  | c :: s' =>
    if c =? 13 then
      10 :: match s' with
            | d :: s'' => if d =? 10 then universal_newlines s'' else universal_newlines s'
            | [] => []
            end
    else c :: universal_newlines s'
  end.

(** Truth value of a string: [not s] holds exactly for the empty string. *)
Definition str_not (s : pystr) : bool :=
  match s with [] => true | _ => false end.

Fixpoint startswith (p s : pystr) : bool :=
  match p, s with
  | [], _ => true
  | a :: p', b :: s' => (a =? b) && startswith p' s'
  | _ :: _, [] => false
  end.

Definition endswith (p s : pystr) : bool := startswith (rev p) (rev s).

(** [p in s] for strings. *)
Fixpoint contains (p s : pystr) : bool :=
  startswith p s || match s with [] => false | _ :: s' => contains p s' end.

(** The specification of [contains]: [p] occurs as a contiguous piece. *)
Definition substring (p s : pystr) : Prop := exists a b, s = a ++ p ++ b.

(** [s.split(".")[0]]: the part of [s] before its first dot. *)
Fixpoint before_first_dot (s : pystr) : pystr :=
  match s with
  | [] => []
  | c :: s' => if c =? 46 then [] else c :: before_first_dot s'
  end.

(** [s.split("\n")] *)
Fixpoint split_lines (s : pystr) : list pystr :=
  match s with
  | [] => [[]]
  | c :: s' =>
    match split_lines s' with
    | [] => [[c]]
    | l :: ls => if c =? 10 then [] :: l :: ls else (c :: l) :: ls
    end
  end.

(** [str(z)] for an integer. *)
Definition str_of_Z (z : Z) : pystr :=
  lit (NilZero.string_of_int (Z.to_int z)).

(** [sep.join(parts)] *)
Fixpoint join (sep : pystr) (parts : list pystr) : pystr :=
  match parts with
  | [] => []
  | [p] => p
  | p :: ps => p ++ sep ++ join sep ps
  end.


Fixpoint str_eqb (a b : pystr) : bool :=
  match a, b with
  | [], [] => true
  | x :: a', y :: b' => (x =? y) && str_eqb a' b'
  | _, _ => false
  end.

(** ** Python values

    The values [json.loads] can produce, and so the values a result
    dictionary can hold.  A float is kept by its [repr]; a dict is the list
    of its items in insertion order. *)

#[warnings="-register-all"]
Inductive value :=
| VNone
| VBool (b : bool)
| VInt (z : Z)
| VFloat (r : pystr)
| VStr (s : pystr)
| VList (l : list value)
| VDict (d : list (pystr * value)).

Fixpoint dict_lookup (k : pystr) (d : list (pystr * value)) : option value :=
  match d with
  | [] => None
  | (k', v) :: d' => if str_eqb k k' then Some v else dict_lookup k d'
  end.

(** [d.get(k, default)] *)
Definition dict_get (d : list (pystr * value)) (k : pystr) (dflt : value) : value :=
  match dict_lookup k d with
  | Some v => v
  | None => dflt
  end.

(** [type(v).__name__] *)
Definition type_name (v : value) : pystr :=
  match v with
  | VNone => lit "NoneType"
  | VBool _ => lit "bool"
  | VInt _ => lit "int"
  | VFloat _ => lit "float"
  | VStr _ => lit "str"
  | VList _ => lit "list"
  | VDict _ => lit "dict"
  end.

(** What [for x in v] ranges over; [None] when [v] is not iterable. *)
Definition py_iter (v : value) : option (list value) :=
  match v with
  | VList l => Some l
  | VStr s => Some (List.map (fun c => VStr [c]) s)
  | VDict d => Some (List.map (fun kv => VStr (fst kv)) d)
  | VNone | VBool _ | VInt _ | VFloat _ => None
  end.

Section Repr.
(** [repr] of a string (quoting and escaping) is the interpreter's. *)
Variable repr_str : pystr -> pystr.

Fixpoint py_repr (v : value) : pystr :=
  match v with
  | VNone => lit "None"
  | VBool true => lit "True"
  | VBool false => lit "False"
  | VInt z => str_of_Z z
  | VFloat r => r
  | VStr s => repr_str s
  | VList l => lit "[" ++ join (lit ", ") (List.map py_repr l) ++ lit "]"
  | VDict d =>
    lit "{"
    ++ join (lit ", ")
         (List.map (fun kv => repr_str (fst kv) ++ lit ": " ++ py_repr (snd kv)) d)
    ++ lit "}"
  end.

(** A value inside an f-string, [f"{v}"], which is [str(v)]. *)
Definition py_format (v : value) : pystr :=
  match v with
  | VStr s => s
  | _ => py_repr v
  end.
End Repr.

(** ** Exceptions, the world, and the monad of the program *)

(** The exception classes the program can meet; all derive from
    [Exception].  [OtherError] stands for any further class (the errors of
    the completion client among them). *)
Inductive exn_class :=
| FileNotFoundError
| JSONDecodeError
| TypeError
| AttributeError
| IndexError
| UnicodeEncodeError
| UnicodeDecodeError
| IsADirectoryError
| PermissionError
| OtherError (name : pystr).

Record exn := Exn { exn_cls : exn_class; exn_msg : pystr }.

Definition is_class (c : exn_class) (e : exn) : bool :=
  match c, exn_cls e with
  | FileNotFoundError, FileNotFoundError => true
  | JSONDecodeError, JSONDecodeError => true
  | TypeError, TypeError => true
  | AttributeError, AttributeError => true
  | IndexError, IndexError => true
  | UnicodeEncodeError, UnicodeEncodeError => true
  | UnicodeDecodeError, UnicodeDecodeError => true
  | IsADirectoryError, IsADirectoryError => true
  | PermissionError, PermissionError => true
  | OtherError a, OtherError b => str_eqb a b
  | _, _ => false
  end.

(** [except Exception]: every modelled class derives from [Exception]. *)
Definition is_Exception (e : exn) : bool := true.

(** What a path of the file system leads to: a file holding the UTF-8
    encoding of a text, a file whose bytes are not UTF-8, or an entry whose
    opening raises (a directory raises [IsADirectoryError], a file the
    process has no right to raises [PermissionError]). *)
Inductive node :=
| File (saturs : pystr)
| Undecodable
| Unopenable (e : exn).

(** The state the program acts on.  [fs] maps a path to what is there;
    [listing] is what enumerating the directory sample_inputs yields, in
    the order of the file system; [console] is what was printed; [written]
    logs every file opened for writing, in order, with the text it was
    left with; [calls] counts the calls of [client.chat.completions.create]
    (a call is what the program does: the client may send several requests
    for one call, which are not counted) and [clock] the readings of the
    time. *)
Record world := World {
  fs : gmap pystr node;
  listing : list pystr;
  console : list pystr;
  written : list (pystr * pystr);
  calls : nat;
  clock : nat
}.

Inductive outcome (A : Type) :=
| Return (a : A) (w : world)
| Raise (e : exn) (w : world).
Arguments Return {A} a w.
Arguments Raise {A} e w.

Definition M (A : Type) := world -> outcome A.

Definition ret {A} (a : A) : M A := fun w => Return a w.
Definition raise {A} (e : exn) : M A := fun w => Raise e w.
Definition bind {A B} (m : M A) (k : A -> M B) : M B :=
  fun w => match m w with
           | Return a w' => k a w'
           | Raise e w' => Raise e w'
           end.

(** [try: body  except C as e: handler e] *)
Definition try_except {A} (body : M A) (C : exn -> bool) (handler : exn -> M A) : M A :=
  fun w => match body w with
           | Return a w' => Return a w'
           | Raise e w' => if C e then handler e w' else Raise e w'
           end.

Declare Scope py_scope.
Delimit Scope py_scope with py.
Notation "x <- c ;; k" := (bind c (fun x => k))
  (at level 100, c at next level, right associativity) : py_scope.
Notation "c ;; k" := (bind c (fun _ => k))
  (at level 100, right associativity) : py_scope.
Local Open Scope py_scope.

Fixpoint for_each {A} (l : list A) (body : A -> M unit) : M unit :=
  match l with
  | [] => ret tt
  | x :: l' => body x ;; for_each l' body
  end.

(** The four ways the program changes the world. *)
Definition w_print (s : pystr) (w : world) : world :=
  {| fs := fs w; listing := listing w; console := console w ++ [s];
     written := written w; calls := calls w; clock := clock w |}.

Definition w_write (path text : pystr) (w : world) : world :=
  {| fs := <[path := File text]> (fs w); listing := listing w; console := console w;
     written := written w ++ [(path, text)]; calls := calls w;
     clock := clock w |}.

Definition w_call (w : world) : world :=
  {| fs := fs w; listing := listing w; console := console w;
     written := written w; calls := S (calls w); clock := clock w |}.

Definition w_tick (w : world) : world :=
  {| fs := fs w; listing := listing w; console := console w;
     written := written w; calls := calls w; clock := S (clock w) |}.

(** The world an outcome leaves behind. *)
Definition out_world {A} (o : outcome A) : world :=
  match o with
  | Return _ w => w
  | Raise _ w => w
  end.

(** [print(s)] *)
Definition print (s : pystr) : M unit := fun w => Return tt (w_print s w).

(** The errors of the codec.  Their messages are abridged (Python names the
    character and its position): no handler of the program ever sees these
    exceptions, so the messages reach no output. *)
Definition decode_error : exn :=
  Exn UnicodeDecodeError (lit "'utf-8' codec can't decode bytes: invalid start byte").
Definition encode_error : exn :=
  Exn UnicodeEncodeError (lit "'utf-8' codec can't encode character: surrogates not allowed").

(** [with open(path, "r", encoding="utf-8") as f: f.read()] *)
Definition read_file (path : pystr) : M pystr :=
  fun w => match fs w !! path with
           | Some (File saturs) => Return (universal_newlines saturs) w
           | Some Undecodable => Raise decode_error w
           | Some (Unopenable e) => Raise e w
           | None =>
             Raise (Exn FileNotFoundError
                      (lit "[Errno 2] No such file or directory: '" ++ path ++ lit "'")) w
           end.

(** [with open(path, "w", encoding="utf-8") as f: f.write(text)]: opening
    empties or creates the file; the text is then written as a whole, or
    not at all when it cannot be encoded, and the file stays empty. *)
Definition write_file (path text : pystr) : M unit :=
  fun w => match fs w !! path with
           | Some (Unopenable e) => Raise e w
           | _ =>
             if utf8 text then Return tt (w_write path text w)
             else Raise encode_error (w_write path [] w)
           end.

(** The pieces that reach a file when they are written one after the
    other, and whether all of them do: the first piece that cannot be
    encoded ends the writing. *)
Fixpoint encoded_prefix (chunks : list pystr) : pystr * bool :=
  match chunks with
  | [] => ([], true)
  | ch :: rest =>
    if utf8 ch then (ch ++ fst (encoded_prefix rest), snd (encoded_prefix rest))
    else ([], false)
  end.

(** [with open(path, "w", encoding="utf-8") as f: for ch in chunks:
    f.write(ch)], which is how [json.dump] writes. *)
Definition write_chunks (path : pystr) (chunks : list pystr) : M unit :=
  fun w => match fs w !! path with
           | Some (Unopenable e) => Raise e w
           | _ =>
             if snd (encoded_prefix chunks)
             then Return tt (w_write path (fst (encoded_prefix chunks)) w)
             else Raise encode_error (w_write path (fst (encoded_prefix chunks)) w)
           end.

(** ** The external collaborators *)

(** The arguments of [client.chat.completions.create]. *)
Record request := Request {
  model : pystr;
  temperature : pystr;
  messages : list (pystr * pystr);
  response_format : pystr
}.

(** A response, by the [message.content] of each of its [choices]
    ([None] when a message carries no text). *)
Record response := Response { choices : list (option pystr) }.

Record Env := {
  (** [OpenAI(api_key=API_KEY)]: [None] when the client is built, [Some e]
      when the constructor raises [e]. *)
  OpenAI_new : option exn;
  (** [client.chat.completions.create]: the outcome of the [n]-th call. *)
  completions_create : nat -> request -> response + exn;
  (** [json.loads] on a string. *)
  json_loads : pystr -> value + exn;
  (** The pieces [json.dump(v, f, ensure_ascii=False, indent=2)] writes
      to [f], in order. *)
  json_dump_chunks : value -> list pystr;
  (** [repr] of a string. *)
  repr_str : pystr -> pystr;
  (** [datetime.now().strftime("%Y-%m-%d %H:%M")] at the [n]-th reading. *)
  strftime_now : nat -> pystr
}.

(** ** The program *)

(** [json.dumps(v, ensure_ascii=False, indent=2)]: the pieces together. *)
Definition json_dumps (E : Env) (v : value) : pystr :=
  List.concat (json_dump_chunks E v).

Definition MODEL_NAME : pystr := lit "gemini-2.5-flash".
Definition TEMPERATURE : pystr := lit "0.3".

Section Program.
Variable E : Env.

Definition new_client : M unit :=
  match OpenAI_new E with
  | None => ret tt
  | Some e => raise e
  end.

Definition chat_completions_create (req : request) : M response :=
  fun w =>
    match completions_create E (calls w) req with
    | inl r => Return r (w_call w)
    | inr e => Raise e (w_call w)
    end.

(** [response.choices[0].message.content] *)
Definition first_choice_content (r : response) : M value :=
  match choices r with
  | [] => raise (Exn IndexError (lit "list index out of range"))
  | Some t :: _ => ret (VStr t)
  | None :: _ => ret VNone
  end.

(** [json.loads(v)] *)
Definition loads (v : value) : M value :=
  match v with
  | VStr t =>
    match json_loads E t with
    | inl r => ret r
    | inr e => raise e
    end
  | _ =>
    raise (Exn TypeError
             (lit "the JSON object must be str, bytes or bytearray, not "
              ++ type_name v))
  end.

Definition datetime_now : M pystr :=
  fun w => Return (strftime_now E (clock w)) (w_tick w).

(** [dati.get(k, dflt)] on a value that need not be a dict. *)
Definition get (dati : value) (k : pystr) (dflt : value) : M value :=
  match dati with
  | VDict d => ret (dict_get d k dflt)
  | _ =>
    raise (Exn AttributeError
             (lit "'" ++ type_name dati ++ lit "' object has no attribute 'get'"))
  end.

(** The items a [for] ranges over, or [TypeError]. *)
Definition iterate (v : value) : M (list value) :=
  match py_iter v with
  | Some l => ret l
  | None =>
    raise (Exn TypeError (lit "'" ++ type_name v ++ lit "' object is not iterable"))
  end.

Definition fmt (v : value) : pystr := py_format (repr_str E) v.

(** *** nolasit_failu *)
Definition nolasit_failu (cels : pystr) : M pystr :=
  try_except
    (saturs <- read_file cels ;; ret (strip saturs))
    (is_class FileNotFoundError)
    (fun _ => print (lit "⚠️ Nevar atrast failu: " ++ cels) ;; ret []).

(** *** izveidot_promptu *)
Definition prompt_text (jd_texts cv_texts : pystr) : pystr :=
  NL
  ++ lit "Tu esi HR speciālists, kas vērtē kandidātu CV atbilstību darba aprakstam (JD)." ++ NL
  ++ lit "Analizē abus tekstus un sniedz precīzu JSON atbildi ar šādu struktūru:" ++ NL
  ++ lit "{" ++ NL
  ++ lit "  " ++ DQ ++ lit "match_score" ++ DQ ++ lit ": 0-100," ++ NL
  ++ lit "  " ++ DQ ++ lit "summary" ++ DQ ++ lit ": " ++ DQ
     ++ lit "Īss apraksts, cik labi CV atbilst JD." ++ DQ ++ lit "," ++ NL
  ++ lit "  " ++ DQ ++ lit "strengths" ++ DQ ++ lit ": [" ++ DQ
     ++ lit "Galvenās prasmes/pieredze no CV, kas atbilst JD" ++ DQ ++ lit "]," ++ NL
  ++ lit "  " ++ DQ ++ lit "missing_requirements" ++ DQ ++ lit ": [" ++ DQ
     ++ lit "Svarīgas JD prasības, kas CV nav redzamas" ++ DQ ++ lit "]," ++ NL
  ++ lit "  " ++ DQ ++ lit "verdict" ++ DQ ++ lit ": " ++ DQ
     ++ lit "strong match | possible match | not a match" ++ DQ ++ NL
  ++ lit "}" ++ NL
  ++ NL
  ++ lit "=== DARBA APRAKSTS ===" ++ NL
  ++ jd_texts ++ NL
  ++ NL
  ++ lit "=== KANDIDĀTA CV ===" ++ NL
  ++ cv_texts ++ NL.

Definition izveidot_promptu (jd_texts cv_texts : pystr) : M pystr :=
  let prompt := prompt_text jd_texts cv_texts in
  write_file (lit "prompt.md") (strip prompt) ;;
  ret (strip prompt).

(** *** izsaukt_modeli *)

(** The keyword arguments of the one call. *)
Definition model_request (prompt : pystr) : request :=
  {| model := MODEL_NAME;
     temperature := TEMPERATURE;
     messages :=
       [(lit "system", lit "Tu esi HR analītiķis, kas vērtē CV atbilstību JD.");
        (lit "user", prompt)];
     response_format := lit "json_object" |}.

Definition izsaukt_modeli (prompt : pystr) : M value :=
  new_client ;;
  try_except
    (response <- chat_completions_create (model_request prompt) ;;
     rezultata_teksts <- first_choice_content response ;;
     try_except
       (loads rezultata_teksts)
       (is_class JSONDecodeError)
       (fun _ =>
          print (lit "⚠️ Brīdinājums: Modelis neatgrieza derīgu JSON. Saglabāju kā neapstrādātu tekstu.") ;;
          ret (VDict [(lit "error", VStr (lit "Invalid JSON"));
                      (lit "raw_response", rezultata_teksts)])))
    is_Exception
    (fun e =>
       print (lit "❌ Kļūda, izsaucot modeli: " ++ exn_msg e) ;;
       ret (VDict [(lit "error", VStr (exn_msg e))])).

(** *** saglabat_json *)
Definition saglabat_json (dati : value) (fails : pystr) : M unit :=
  write_chunks fails (json_dump_chunks E dati).

(** *** genereet_parskatu *)
Definition parskats_text (datums match_score summary strengths missing verdict : pystr)
  : pystr :=
  lit "# CV Atbilstības Pārskats" ++ NL
  ++ NL
  ++ lit "**Datums:** " ++ datums ++ NL
  ++ lit "**Atbilstības punktu skaits:** " ++ match_score ++ NL
  ++ NL
  ++ lit "---" ++ NL
  ++ NL
  ++ lit "### 📝 Kopsavilkums" ++ NL
  ++ summary ++ NL
  ++ NL
  ++ lit "---" ++ NL
  ++ NL
  ++ lit "### ✅ Stiprās puses" ++ NL
  ++ strengths ++ NL
  ++ NL
  ++ lit "---" ++ NL
  ++ NL
  ++ lit "### ⚠️ Trūkstošās prasības" ++ NL
  ++ missing ++ NL
  ++ NL
  ++ lit "---" ++ NL
  ++ NL
  ++ lit "### 💡 Spriedums" ++ NL
  ++ lit "**" ++ verdict ++ lit "**" ++ NL.

(** The lines [f"- {s}\n"] of the items joined, or the placeholder when
    that is the empty string. *)
Definition bullets (items : list value) : pystr :=
  let joined := List.concat (List.map (fun s => lit "- " ++ fmt s ++ NL) items) in
  if str_not joined then lit "Nav norādīts." else joined.

Definition genereet_parskatu (dati : value) (fails : pystr) : M unit :=
  datums <- datetime_now ;;
  match_score <- get dati (lit "match_score") (VStr (lit "N/A")) ;;
  summary <- get dati (lit "summary") (VStr (lit "Nav kopsavilkuma.")) ;;
  strengths <- get dati (lit "strengths") (VList []) ;;
  stipras <- iterate strengths ;;
  missing <- get dati (lit "missing_requirements") (VList []) ;;
  trukstosas <- iterate missing ;;
  verdict <- get dati (lit "verdict") (VStr (lit "Nav sprieduma.")) ;;
  let parskats :=
    parskats_text datums (fmt match_score) (fmt summary)
      (bullets stipras) (bullets trukstosas) (fmt verdict) in
  write_file fails (strip parskats).

(** *** main *)

(** [Path("sample_inputs").glob("cv*.txt")], by file name. *)
Definition glob_cv (names : list pystr) : list pystr :=
  List.filter (fun n => startswith (lit "cv") n && endswith (lit ".txt") n) names.

Definition cv_cels (cv : pystr) : pystr := lit "sample_inputs/" ++ cv.
Definition json_fails (cv : pystr) : pystr :=
  lit "outputs/" ++ before_first_dot cv ++ lit ".json".
Definition md_fails (cv : pystr) : pystr :=
  lit "outputs/" ++ before_first_dot cv ++ lit "_report.md".

(** One turn of the [for cv in cv_fails] loop. *)
Definition main_cv (jd_texts cv : pystr) : M unit :=
  cv_texts <- nolasit_failu (cv_cels cv) ;;
  if str_not cv_texts then
    print (lit "⚠️ Izlaiž " ++ cv ++ lit " — nav datu.")
  else
    print (lit "🔍 Vērtēju " ++ cv ++ lit "...") ;;
    prompts <- izveidot_promptu jd_texts cv_texts ;;
    rezultats <- izsaukt_modeli prompts ;;
    saglabat_json rezultats (json_fails cv) ;;
    genereet_parskatu rezultats (md_fails cv) ;;
    print (lit "✅ Sagatavots: " ++ json_fails cv ++ lit " un " ++ md_fails cv ++ NL).

Definition main : M unit :=
  print (lit "🚀 AI darbināts CV vērtētājs tiek palaists..." ++ NL) ;;
  let jd_cels := lit "sample_inputs/jd.txt" in
  jd_texts <- nolasit_failu jd_cels ;;
  if str_not jd_texts then
    print (lit "❌ Nav atrasts darba apraksta fails (jd.txt).")
  else
    cv_fails <- (fun w => Return (glob_cv (listing w)) w) ;;
    for_each cv_fails (main_cv jd_texts) ;;
    print (lit "🎯 Visi CV ir novērtēti un rezultāti saglabāti mapē 'outputs'.").
End Program.

(** ** Auxiliary notions used to state the properties *)

(** The fixed text of the prompt before the job description, and between
    the job description and the CV. *)
Definition prompt_head : pystr :=
  lit "Tu esi HR speciālists, kas vērtē kandidātu CV atbilstību darba aprakstam (JD)." ++ NL
  ++ lit "Analizē abus tekstus un sniedz precīzu JSON atbildi ar šādu struktūru:" ++ NL
  ++ lit "{" ++ NL
  ++ lit "  " ++ DQ ++ lit "match_score" ++ DQ ++ lit ": 0-100," ++ NL
  ++ lit "  " ++ DQ ++ lit "summary" ++ DQ ++ lit ": " ++ DQ
     ++ lit "Īss apraksts, cik labi CV atbilst JD." ++ DQ ++ lit "," ++ NL
  ++ lit "  " ++ DQ ++ lit "strengths" ++ DQ ++ lit ": [" ++ DQ
     ++ lit "Galvenās prasmes/pieredze no CV, kas atbilst JD" ++ DQ ++ lit "]," ++ NL
  ++ lit "  " ++ DQ ++ lit "missing_requirements" ++ DQ ++ lit ": [" ++ DQ
     ++ lit "Svarīgas JD prasības, kas CV nav redzamas" ++ DQ ++ lit "]," ++ NL
  ++ lit "  " ++ DQ ++ lit "verdict" ++ DQ ++ lit ": " ++ DQ
     ++ lit "strong match | possible match | not a match" ++ DQ ++ NL
  ++ lit "}" ++ NL
  ++ NL
  ++ lit "=== DARBA APRAKSTS ===" ++ NL.

Definition prompt_mid : pystr := NL ++ NL ++ lit "=== KANDIDĀTA CV ===" ++ NL.

(** Paths under the input directory. *)
Definition is_input_path (p : pystr) : bool := startswith (lit "sample_inputs/") p.

(** The files whose paths satisfy [P] are the same in [w'] as in [w]. *)
Definition same_on (P : pystr -> Prop) (w w' : world) : Prop :=
  forall p, P p -> fs w' !! p = fs w !! p.

(** A computation that leaves the files at [P] alone, however it ends. *)
Definition keeps (P : pystr -> Prop) {A} (m : M A) : Prop :=
  forall w, same_on P w (out_world (m w)).

Definition input_paths (p : pystr) : Prop := is_input_path p = true.
Definition the_prompt_file (p : pystr) : Prop := p = lit "prompt.md".

(** What [nolasit_failu] makes of a text file that holds [c]: the line ends
    as text mode reads them, the white space at both ends removed. *)
Definition loaded (c : pystr) : pystr := strip (universal_newlines c).

(** The path can be opened for writing: nothing is there, or a file. *)
Definition writable (w : world) (p : pystr) : bool :=
  match fs w !! p with
  | Some (Unopenable _) => false
  | _ => true
  end.

(** A text all of whose characters are white space. *)
Definition all_space (s : pystr) : Prop := Forall (fun c => isspace c = true) s.

(** What the report's loop over the list field [k] of [d] ranges over:
    nothing when the field is missing, [None] when its value cannot be
    iterated. *)
Definition field_items (d : list (pystr * value)) (k : pystr) : option (list value) :=
  py_iter (dict_get d k (VList [])).

(** The console lines of [main] and of one turn of its loop. *)
Definition msg_start : pystr := lit "🚀 AI darbināts CV vērtētājs tiek palaists..." ++ NL.
Definition msg_fatal : pystr := lit "❌ Nav atrasts darba apraksta fails (jd.txt).".
Definition msg_not_found (cels : pystr) : pystr := lit "⚠️ Nevar atrast failu: " ++ cels.
Definition msg_skip (cv : pystr) : pystr := lit "⚠️ Izlaiž " ++ cv ++ lit " — nav datu.".
Definition msg_eval (cv : pystr) : pystr := lit "🔍 Vērtēju " ++ cv ++ lit "...".
Definition msg_model_error (e : exn) : pystr := lit "❌ Kļūda, izsaucot modeli: " ++ exn_msg e.

(** The two error records of [izsaukt_modeli]. *)
Definition invalid_json_record (raw : value) : value :=
  VDict [(lit "error", VStr (lit "Invalid JSON")); (lit "raw_response", raw)].
Definition failure_record (e : exn) : value :=
  VDict [(lit "error", VStr (exn_msg e))].

(** The world in which one turn of the loop calls the model: the turn has
    announced the candidate and written the prompt. *)
Definition w_prompted (cv prompts : pystr) (w : world) : world :=
  w_write (lit "prompt.md") prompts (w_print (msg_eval cv) w).

(** The report as written to the file: [parskats_text] without its last
    newline. *)
Definition parskats_stripped (datums match_score summary strengths missing verdict : pystr)
  : pystr :=
  lit "# CV Atbilstības Pārskats" ++ NL
  ++ NL
  ++ lit "**Datums:** " ++ datums ++ NL
  ++ lit "**Atbilstības punktu skaits:** " ++ match_score ++ NL
  ++ NL
  ++ lit "---" ++ NL
  ++ NL
  ++ lit "### 📝 Kopsavilkums" ++ NL
  ++ summary ++ NL
  ++ NL
  ++ lit "---" ++ NL
  ++ NL
  ++ lit "### ✅ Stiprās puses" ++ NL
  ++ strengths ++ NL
  ++ NL
  ++ lit "---" ++ NL
  ++ NL
  ++ lit "### ⚠️ Trūkstošās prasības" ++ NL
  ++ missing ++ NL
  ++ NL
  ++ lit "---" ++ NL
  ++ NL
  ++ lit "### 💡 Spriedums" ++ NL
  ++ lit "**" ++ verdict ++ lit "**".

(** The text [genereet_parskatu] builds for the dictionary [d] at the time
    [datums], a list field that cannot be iterated counting for nothing. *)
Definition report_text (E : Env) (datums : pystr) (d : list (pystr * value)) : pystr :=
  parskats_stripped datums
    (fmt E (dict_get d (lit "match_score") (VStr (lit "N/A"))))
    (fmt E (dict_get d (lit "summary") (VStr (lit "Nav kopsavilkuma."))))
    (bullets E (default [] (field_items d (lit "strengths"))))
    (bullets E (default [] (field_items d (lit "missing_requirements"))))
    (fmt E (dict_get d (lit "verdict") (VStr (lit "Nav sprieduma.")))).

(** [l in text.split("\n")] *)
Definition has_line (l text : pystr) : bool := existsb (str_eqb l) (split_lines text).

(** The field [k] of [d], when present, can be iterated. *)
Definition present_iterable (d : list (pystr * value)) (k : pystr) : Prop :=
  forall v, dict_lookup k d = Some v -> py_iter v <> None.

(** The three files of the turn for [cv] can be opened for writing. *)
Definition outputs_writable (w : world) (cv : pystr) : bool :=
  writable w (lit "prompt.md") && writable w (json_fails cv) && writable w (md_fails cv).

(** One turn of the loop for [cv] from [w] writes, after the prompt, the
    JSON file of [cv] once and its report once, and no other file. *)
Definition writes_both_reports (E : Env) (jd cv : pystr) (w : world) : Prop :=
  exists prompts j r,
    written (out_world (main_cv E jd cv w))
    = written w ++ [(lit "prompt.md", prompts); (json_fails cv, j); (md_fails cv, r)].

(** ** Concrete environments and worlds, for examples *)

Definition quoted (s : pystr) : pystr := DQ ++ s ++ DQ.

(** An environment whose service always gives the same answer and whose
    parser knows the texts of a table. *)
Definition stub_env (ctor : option exn) (answer : response + exn)
           (table : list (pystr * value)) : Env :=
  {| OpenAI_new := ctor;
     completions_create := fun _ _ => answer;
     json_loads := fun t =>
       match List.find (fun kv => str_eqb t (fst kv)) table with
       | Some kv => inl (snd kv)
       | None => inr (Exn JSONDecodeError (lit "Expecting value: line 1 column 1 (char 0)"))
       end;
     json_dump_chunks := fun v => [py_repr quoted v];
     repr_str := fun s => lit "'" ++ s ++ lit "'";
     strftime_now := fun _ => lit "2025-11-03 09:30" |}.

Definition demo_world (files : list (pystr * pystr)) (names : list pystr) : world :=
  {| fs := list_to_map (List.map (fun pt => (fst pt, File (snd pt))) files);
     listing := names; console := []; written := [];
     calls := 0%nat; clock := 0%nat |}.

Definition jd_path : pystr := lit "sample_inputs/jd.txt".

(** The scenario of the specification: one candidate, a well-formed answer. *)
Definition alice_obj : value :=
  VDict [(lit "match_score", VInt 72);
         (lit "summary", VStr (lit "Solid backend experience, junior on leadership scope"));
         (lit "strengths", VList [VStr (lit "Go expertise")]);
         (lit "missing_requirements", VList [VStr (lit "5 years seniority")]);
         (lit "verdict", VStr (lit "possible match"))].

Definition alice_text : pystr :=
  lit "{" ++ quoted (lit "match_score") ++ lit ": 72, "
  ++ quoted (lit "summary") ++ lit ": "
  ++ quoted (lit "Solid backend experience, junior on leadership scope") ++ lit ", "
  ++ quoted (lit "strengths") ++ lit ": [" ++ quoted (lit "Go expertise") ++ lit "], "
  ++ quoted (lit "missing_requirements") ++ lit ": ["
  ++ quoted (lit "5 years seniority") ++ lit "], "
  ++ quoted (lit "verdict") ++ lit ": " ++ quoted (lit "possible match") ++ lit "}".

Definition alice_env : Env :=
  stub_env None (inl (Response [Some alice_text])) [(alice_text, alice_obj)].

Definition alice_world : world :=
  demo_world
    [(jd_path, lit "Senior backend engineer, 5 years Go");
     (lit "sample_inputs/cv_alice.txt", lit "3 years Go, led a team")]
    [lit "jd.txt"; lit "cv_alice.txt"].

(** An answer that is a JSON object whose [strengths] is [null]. *)
Definition null_text : pystr := lit "{" ++ quoted (lit "strengths") ++ lit ": null}".
Definition null_obj : value := VDict [(lit "strengths", VNone)].
Definition null_env : Env :=
  stub_env None (inl (Response [Some null_text])) [(null_text, null_obj)].


(** The service cannot be reached. *)
Definition down_error : exn :=
  Exn (OtherError (lit "APIConnectionError")) (lit "Connection error.").
Definition down_env : Env := stub_env None (inr down_error) [].

(** No credential in the environment: the constructor of the client raises. *)
Definition no_key_error : exn :=
  Exn (OtherError (lit "OpenAIError"))
      (lit "The api_key client option must be set either by passing api_key to the client or by setting the OPENAI_API_KEY environment variable").
Definition no_key_env : Env :=
  stub_env (Some no_key_error) (inl (Response [Some alice_text])) [(alice_text, alice_obj)].

(** Worlds without a job description, with a blank one, and with blank and
    empty candidates between good ones. *)
Definition no_jd_world : world :=
  demo_world [(lit "sample_inputs/cv_alice.txt", lit "3 years Go, led a team")]
             [lit "cv_alice.txt"].

Definition blank : pystr := lit "  " ++ NL ++ [0xA0; 9].

Definition blank_jd_world : world :=
  demo_world [(jd_path, blank);
              (lit "sample_inputs/cv_alice.txt", lit "3 years Go, led a team")]
             [lit "cv_alice.txt"].

Definition mixed_world : world :=
  demo_world
    [(jd_path, lit "Senior backend engineer, 5 years Go");
     (lit "sample_inputs/cv_alice.txt", lit "3 years Go, led a team");
     (lit "sample_inputs/cv_blank.txt", blank);
     (lit "sample_inputs/cv_empty.txt", []);
     (lit "sample_inputs/cv_bob.txt", lit "10 years Go")]
    [lit "cv_alice.txt"; lit "cv_empty.txt"; lit "cv_blank.txt"; lit "cv_bob.txt"].

(** Two versions of one CV, named alike up to the first dot. *)
Definition versions_world : world :=
  demo_world
    [(jd_path, lit "Senior backend engineer, 5 years Go");
     (lit "sample_inputs/cv.old.txt", lit "old text");
     (lit "sample_inputs/cv.new.txt", lit "new text")]
    [lit "cv.old.txt"; lit "cv.new.txt"].

(** The files the program is meant to produce: the prompt file and what
    lies under the output directory. *)
Definition is_output_path (p : pystr) : bool := startswith (lit "outputs/") p.
Definition produced_paths (p : pystr) : Prop :=
  p = lit "prompt.md" \/ is_output_path p = true.
Definition other_paths (p : pystr) : Prop := ~ produced_paths p.

(** A computation that calls the completion client at most [n] times,
    however it ends. *)
Definition calls_at_most (n : nat) {A} (m : M A) : Prop :=
  forall w, (calls w <= calls (out_world (m w)) <= calls w + n)%nat.

(** The console line that closes a run. *)
Definition msg_done : pystr :=
  lit "🎯 Visi CV ir novērtēti un rezultāti saglabāti mapē 'outputs'.".

(** The report of a record that has none of the five fields. *)
Definition placeholder_report (datums : pystr) : pystr :=
  parskats_stripped datums (lit "N/A") (lit "Nav kopsavilkuma.") (lit "Nav norādīts.")
    (lit "Nav norādīts.") (lit "Nav sprieduma.").

(** Answers without text, and a text that is not JSON on which the parser
    fails otherwise than by [JSONDecodeError]: two hundred thousand opening
    brackets exhaust the recursion of [json.loads]. *)
Definition silent_env : Env := stub_env None (inl (Response [None])) [].
Definition no_choice_env : Env := stub_env None (inl (Response [])) [].

Definition recursion_error : exn :=
  Exn (OtherError (lit "RecursionError"))
      (lit "maximum recursion depth exceeded while decoding a JSON array from a unicode string").
Definition deep_text : pystr := List.repeat 91 (N.to_nat 200000).
Definition deep_env : Env :=
  {| OpenAI_new := None;
     completions_create := fun _ _ => inl (Response [Some deep_text]);
     json_loads := fun _ => inr recursion_error;
     json_dump_chunks := fun v => [py_repr quoted v];
     repr_str := fun s => lit "'" ++ s ++ lit "'";
     strftime_now := fun _ => lit "2025-11-03 09:30" |}.

(** A JSON text may spell a lone surrogate as an escape; [json.loads]
    then yields a string that holds it. *)
Definition lone_text : pystr :=
  lit "{" ++ quoted (lit "summary") ++ lit ": " ++ quoted (lit "\ud800") ++ lit "}".
Definition lone_obj : list (pystr * value) := [(lit "summary", VStr [0xD800])].
Definition lone_env : Env :=
  stub_env None (inl (Response [Some lone_text])) [(lone_text, VDict lone_obj)].

(** [w] with the entry [n] at the path [p]. *)
Definition with_node (p : pystr) (n : node) (w : world) : world :=
  {| fs := <[p := n]> (fs w); listing := listing w; console := console w;
     written := written w; calls := calls w; clock := clock w |}.

Definition is_a_directory (p : pystr) : exn :=
  Exn IsADirectoryError (lit "[Errno 21] Is a directory: '" ++ p ++ lit "'").

(** The world of the scenario with a directory named like a candidate. *)
Definition dir_world : world :=
  with_node (lit "sample_inputs/cv_alice.txt")
    (Unopenable (is_a_directory (lit "sample_inputs/cv_alice.txt"))) alice_world.

(** A text with the line ends of three systems. *)
Definition crlf_text : pystr := lit "a" ++ [13; 10] ++ lit "b" ++ [13] ++ lit "c" ++ NL ++ lit "d".

(** A world whose candidates have no text. *)
Definition idle_world : world :=
  demo_world
    [(jd_path, lit "Senior backend engineer, 5 years Go");
     (lit "sample_inputs/cv_blank.txt", blank);
     (lit "sample_inputs/cv_empty.txt", [])]
    [lit "jd.txt"; lit "cv_empty.txt"; lit "notes.md"; lit "cv_blank.txt"].

(** * Properties *)

Arguments lit : simpl never.
Strategy 1000 [lit].
Arguments strip : simpl never.
Arguments prompt_text : simpl never.
Arguments parskats_text : simpl never.

(** ** Strings *)

Example lit_decodes_utf8 : lit "ība ⚠" = [299; 98; 97; 32; 0x26A0].
Proof. reflexivity. Qed.

Example strip_both_ends : strip (lit "  a b" ++ NL ++ [0xA0]) = lit "a b".
Proof. reflexivity. Qed.

Example str_of_Z_decimal : str_of_Z 72 = lit "72" /\ str_of_Z (-5) = lit "-5".
Proof. split; reflexivity. Qed.

Example glob_cv_pattern :
  glob_cv [lit "jd.txt"; lit "cv_a.txt"; lit "cv.txt"; lit "mycv.txt"; lit "cv_b.md"]
  = [lit "cv_a.txt"; lit "cv.txt"].
Proof. reflexivity. Qed.

Example split_lines_keeps_empty : split_lines (lit "a" ++ NL ++ NL ++ lit "b") = [lit "a"; []; lit "b"].
Proof. reflexivity. Qed.

Lemma str_eqb_spec (a b : pystr) : str_eqb a b = true <-> a = b.
Proof.
  revert b. induction a as [|x a IH]; intros [|y b]; simpl; try (split; congruence).
  rewrite andb_true_iff, N.eqb_eq, IH. split.
  - intros [-> ->]. reflexivity.
  - intros [= -> ->]. split; reflexivity.
Qed.

Lemma str_eqb_refl (a : pystr) : str_eqb a a = true.
Proof. apply str_eqb_spec. reflexivity. Qed.

Lemma startswith_spec (p s : pystr) : startswith p s = true <-> exists t, s = p ++ t.
Proof.
  revert s. induction p as [|a p IH]; intros s; simpl.
  - split; [intros _; exists s; reflexivity | reflexivity].
  - destruct s as [|b s].
    + split; [discriminate | intros [t Ht]; discriminate].
    + rewrite andb_true_iff, N.eqb_eq, IH. split.
      * intros [-> [t ->]]. exists t. reflexivity.
      * intros [t [= -> ->]]. split; [reflexivity | exists t; reflexivity].
Qed.

Lemma contains_spec (p s : pystr) : contains p s = true <-> substring p s.
Proof.
  induction s as [|c s IH].
  - simpl. rewrite orb_false_r, startswith_spec. split.
    + intros [t Ht]. exists [], t. exact Ht.
    + intros [a [b Hab]]. destruct a; [exists b; exact Hab | discriminate].
  - cbn [contains]. rewrite orb_true_iff, startswith_spec, IH. split.
    + intros [[t Ht] | [a [b Hab]]].
      * exists [], t. exact Ht.
      * exists (c :: a), b. rewrite Hab. reflexivity.
    + intros [a [b Hab]]. destruct a as [|x a].
      * left. exists b. exact Hab.
      * right. injection Hab as _ Hab. exists a, b. exact Hab.
Qed.

Lemma rstrip_app (x y : pystr) :
  rstrip (x ++ y) = match rstrip y with [] => rstrip x | _ :: _ => x ++ rstrip y end.
Proof.
  induction x as [|c x IH]; simpl.
  - destruct (rstrip y); reflexivity.
  - rewrite IH. destruct (rstrip y) as [|r rs] eqn:Hy.
    + reflexivity.
    + destruct (x ++ r :: rs) eqn:Hx; [|reflexivity].
      destruct x; discriminate.
Qed.

Lemma rstrip_app_keep (x y : pystr) : rstrip y <> [] -> rstrip (x ++ y) = x ++ rstrip y.
Proof. intros H. rewrite rstrip_app. destruct (rstrip y); [contradiction | reflexivity]. Qed.

Lemma rstrip_idem (s : pystr) : rstrip (rstrip s) = rstrip s.
Proof.
  induction s as [|c s IH]; simpl; [reflexivity|].
  destruct (rstrip s) as [|r rs] eqn:Hs.
  - destruct (isspace c) eqn:Hc; simpl; [reflexivity | rewrite Hc; reflexivity].
  - change (rstrip (c :: r :: rs)) with
      (match rstrip (r :: rs) with [] => if isspace c then [] else [c] | x => c :: x end).
    rewrite IH. reflexivity.
Qed.

Lemma rstrip_empty_iff (s : pystr) : rstrip s = [] <-> all_space s.
Proof.
  unfold all_space. induction s as [|c s IH]; simpl.
  - split; [constructor | reflexivity].
  - destruct (rstrip s) as [|r rs] eqn:Hs.
    + destruct (isspace c) eqn:Hc.
      * split; [intros _; constructor; [exact Hc | apply IH; reflexivity] | reflexivity].
      * split; [discriminate | intros H; inversion H; congruence].
    + split; [discriminate |].
      intros H. inversion H as [|? ? _ Hs']. apply IH in Hs'. discriminate.
Qed.

Lemma lstrip_all_space (s : pystr) : all_space s -> lstrip s = [].
Proof.
  unfold all_space. induction 1 as [|c s Hc _ IH]; simpl; [reflexivity|].
  rewrite Hc. exact IH.
Qed.

Lemma lstrip_suffix (s : pystr) : exists a, all_space a /\ s = a ++ lstrip s.
Proof.
  induction s as [|c s [a [Ha Hs]]]; simpl.
  - exists []. split; [constructor | reflexivity].
  - destruct (isspace c) eqn:Hc.
    + exists (c :: a). split; [constructor; assumption | simpl; congruence].
    + exists []. split; [constructor | reflexivity].
Qed.

Lemma strip_empty_iff (s : pystr) : strip s = [] <-> all_space s.
Proof.
  unfold strip. rewrite rstrip_empty_iff. split.
  - intros H. destruct (lstrip_suffix s) as [a [Ha Hs]]. rewrite Hs.
    apply Forall_app. split; assumption.
  - intros H. rewrite (lstrip_all_space s H). constructor.
Qed.

(** What [strip] returns has no white space left at its end. *)
Lemma rstrip_strip (s : pystr) : rstrip (strip s) = strip s.
Proof. unfold strip. apply rstrip_idem. Qed.

(** ** Texts that can be encoded, and the line ends *)

Lemma utf8_app (a b : pystr) : utf8 (a ++ b) = utf8 a && utf8 b.
Proof. apply forallb_app. Qed.

Lemma utf8_app_true (a b : pystr) :
  utf8 a = true -> utf8 b = true -> utf8 (a ++ b) = true.
Proof. intros Ha Hb. rewrite utf8_app, Ha, Hb. reflexivity. Qed.

Lemma utf8_lstrip (s : pystr) : utf8 s = true -> utf8 (lstrip s) = true.
Proof.
  induction s as [|c s IH]; simpl; [reflexivity|].
  intros H. destruct (isspace c); [|exact H].
  apply andb_true_iff in H. apply IH, H.
Qed.

Lemma utf8_rstrip (s : pystr) : utf8 s = true -> utf8 (rstrip s) = true.
Proof.
  induction s as [|c s IH]; simpl; [reflexivity|].
  intros H. apply andb_true_iff in H. destruct H as [Hc Hs].
  specialize (IH Hs). destruct (rstrip s) as [|r rs].
  - destruct (isspace c); simpl; [reflexivity | rewrite Hc; reflexivity].
  - simpl in *. rewrite Hc. exact IH.
Qed.

Lemma utf8_strip (s : pystr) : utf8 s = true -> utf8 (strip s) = true.
Proof. intros H. unfold strip. apply utf8_rstrip, utf8_lstrip, H. Qed.

Lemma isspace_not_surrogate (c : N) : isspace c = true -> is_surrogate c = false.
Proof.
  unfold isspace, is_surrogate. intros H.
  rewrite !orb_true_iff, !andb_true_iff, !N.leb_le, !N.eqb_eq in H.
  apply andb_false_iff. rewrite N.leb_gt. left. lia.
Qed.

Lemma all_space_utf8 (s : pystr) : all_space s -> utf8 s = true.
Proof.
  unfold all_space. induction 1 as [|c s Hc _ IH]; simpl; [reflexivity|].
  rewrite (isspace_not_surrogate c Hc), IH. reflexivity.
Qed.

(** Lists by their first two elements, for [universal_newlines]. *)
Lemma list_ind2 {A} (P : list A -> Prop) :
  P [] -> (forall x, P [x]) ->
  (forall x y l, P l -> P (y :: l) -> P (x :: y :: l)) ->
  forall l, P l.
Proof.
  intros H0 H1 H2 l. assert (H : P l /\ forall x, P (x :: l)); [|exact (proj1 H)].
  induction l as [|y l [IH1 IH2]].
  - split; [exact H0 | exact H1].
  - split; [apply IH2 | intros x; apply H2; [exact IH1 | apply IH2]].
Qed.

Lemma universal_newlines_cons (c : N) (s : pystr) :
  universal_newlines (c :: s)
  = if c =? 13 then
      10 :: match s with
            | d :: s' => if d =? 10 then universal_newlines s' else universal_newlines s
            | [] => []
            end
    else c :: universal_newlines s.
Proof. destruct s; reflexivity. Qed.

Lemma utf8_universal_newlines (s : pystr) :
  utf8 s = true -> utf8 (universal_newlines s) = true.
Proof.
  induction s as [| x | x y l IH1 IH2] using list_ind2.
  - reflexivity.
  - simpl. destruct (x =? 13); [reflexivity | exact (fun H => H)].
  - intros H. rewrite universal_newlines_cons.
    change (utf8 (x :: y :: l)) with (negb (is_surrogate x) && utf8 (y :: l)) in H.
    apply andb_true_iff in H. destruct H as [Hx Hyl].
    assert (Hl : utf8 l = true).
    { simpl in Hyl. apply andb_true_iff in Hyl. apply Hyl. }
    destruct (x =? 13).
    + destruct (y =? 10); simpl; [apply IH1, Hl | apply IH2, Hyl].
    + change (negb (is_surrogate x) && utf8 (universal_newlines (y :: l)) = true).
      rewrite Hx. apply IH2, Hyl.
Qed.

Lemma all_space_universal_newlines (s : pystr) :
  all_space (universal_newlines s) <-> all_space s.
Proof.
  unfold all_space.
  induction s as [| x | x y l IH1 IH2] using list_ind2.
  - reflexivity.
  - simpl. destruct (x =? 13) eqn:Hx; [|reflexivity].
    apply N.eqb_eq in Hx. subst x. split; intros _; repeat constructor.
  - rewrite universal_newlines_cons. destruct (x =? 13) eqn:Hx.
    + apply N.eqb_eq in Hx. subst x. destruct (y =? 10) eqn:Hy.
      * apply N.eqb_eq in Hy. subst y. split.
        -- intros H. inversion H as [|? ? _ Hl]. apply IH1 in Hl.
           repeat constructor. exact Hl.
        -- intros H. inversion H as [|? ? _ Hyl]. inversion Hyl as [|? ? _ Hl].
           constructor; [reflexivity | apply IH1, Hl].
      * split.
        -- intros H. inversion H as [|? ? _ Hyl]. apply IH2 in Hyl.
           constructor; [reflexivity | exact Hyl].
        -- intros H. inversion H as [|? ? _ Hyl].
           constructor; [reflexivity | apply IH2, Hyl].
    + split.
      * intros H. inversion H as [|? ? Hc Hyl]. constructor; [exact Hc | apply IH2, Hyl].
      * intros H. inversion H as [|? ? Hc Hyl]. constructor; [exact Hc | apply IH2, Hyl].
Qed.

(** A text without carriage returns is read as it is. *)
Lemma universal_newlines_id (s : pystr) : ~ In 13 s -> universal_newlines s = s.
Proof.
  induction s as [|c s IH]; [reflexivity|].
  intros H. rewrite universal_newlines_cons.
  destruct (c =? 13) eqn:Hc.
  - apply N.eqb_eq in Hc. subst c. exfalso. apply H. left. reflexivity.
  - f_equal. apply IH. intros Hin. apply H. right. exact Hin.
Qed.

Lemma loaded_empty_iff (c : pystr) : loaded c = [] <-> strip c = [].
Proof.
  unfold loaded. rewrite !strip_empty_iff. apply all_space_universal_newlines.
Qed.

Lemma utf8_loaded (c : pystr) : utf8 c = true -> utf8 (loaded c) = true.
Proof. intros H. apply utf8_strip, utf8_universal_newlines, H. Qed.

Lemma encoded_prefix_all (chunks : list pystr) :
  utf8 (List.concat chunks) = true ->
  encoded_prefix chunks = (List.concat chunks, true).
Proof.
  induction chunks as [|ch rest IH]; simpl; [reflexivity|].
  rewrite utf8_app. intros H. apply andb_true_iff in H. destruct H as [Hc Hr].
  rewrite Hc, (IH Hr). reflexivity.
Qed.

(** ** The prompt *)

Lemma prompt_text_split (jd cv : pystr) :
  prompt_text jd cv = NL ++ prompt_head ++ jd ++ prompt_mid ++ cv ++ NL.
Proof. vm_compute. reflexivity. Qed.

Lemma lstrip_prompt (r : pystr) : lstrip (NL ++ prompt_head ++ r) = prompt_head ++ r.
Proof. vm_compute. reflexivity. Qed.

Lemma rstrip_prompt_mid : rstrip prompt_mid = NL ++ NL ++ lit "=== KANDIDĀTA CV ===".
Proof. vm_compute. reflexivity. Qed.

Lemma rstrip_prompt_mid_app (r : pystr) : rstrip (prompt_mid ++ r) <> [].
Proof.
  rewrite rstrip_app. destruct (rstrip r).
  - rewrite rstrip_prompt_mid. discriminate.
  - discriminate.
Qed.

(** The prompt as returned: the leading newline and everything blank at the
    end are gone, the blank end of the CV text included. *)
Lemma strip_prompt_text (jd cv : pystr) :
  strip (prompt_text jd cv)
  = prompt_head ++ jd
    ++ match rstrip cv with
       | [] => NL ++ NL ++ lit "=== KANDIDĀTA CV ==="
       | _ :: _ => prompt_mid ++ rstrip cv
       end.
Proof.
  unfold strip. rewrite prompt_text_split, lstrip_prompt.
  assert (Hcv : rstrip (cv ++ NL) = rstrip cv) by (rewrite rstrip_app; reflexivity).
  assert (Hmid : rstrip (prompt_mid ++ cv ++ NL)
                 = match rstrip cv with
                   | [] => NL ++ NL ++ lit "=== KANDIDĀTA CV ==="
                   | _ :: _ => prompt_mid ++ rstrip cv
                   end).
  { rewrite rstrip_app, Hcv, rstrip_prompt_mid. reflexivity. }
  assert (Hne : rstrip (prompt_mid ++ cv ++ NL) <> []) by apply rstrip_prompt_mid_app.
  rewrite rstrip_app_keep.
  - rewrite rstrip_app_keep by exact Hne. rewrite Hmid. reflexivity.
  - rewrite rstrip_app_keep by exact Hne. intros H. apply app_eq_nil in H.
    destruct H as [_ H]. contradiction.
Qed.

Lemma prompt_contains_jd (jd cv : pystr) : substring jd (strip (prompt_text jd cv)).
Proof. rewrite strip_prompt_text. eexists prompt_head, _. reflexivity. Qed.

Lemma prompt_contains_cv (jd cv : pystr) :
  rstrip cv = cv -> substring cv (strip (prompt_text jd cv)).
Proof.
  intros H. rewrite strip_prompt_text, H. destruct cv as [|c cv].
  - exists [], (prompt_head ++ jd ++ NL ++ NL ++ lit "=== KANDIDĀTA CV ===").
    rewrite !app_nil_l. reflexivity.
  - exists (prompt_head ++ jd ++ prompt_mid), [].
    rewrite app_nil_r, <- !app_assoc. reflexivity.
Qed.

Lemma utf8_prompt (jd cv : pystr) :
  utf8 jd = true -> utf8 cv = true -> utf8 (strip (prompt_text jd cv)) = true.
Proof.
  intros Hjd Hcv. apply utf8_strip. rewrite prompt_text_split.
  repeat (apply utf8_app_true; [first [assumption | vm_compute; reflexivity]|]).
  vm_compute. reflexivity.
Qed.

(** ** Reading and writing files *)

Lemma write_file_ok (path text : pystr) (w : world) :
  writable w path = true -> utf8 text = true ->
  write_file path text w = Return tt (w_write path text w).
Proof.
  unfold writable, write_file. intros Hw Hu. rewrite Hu.
  destruct (fs w !! path) as [[| |]|]; [reflexivity | reflexivity | discriminate | reflexivity].
Qed.

Lemma write_file_not_encodable (path text : pystr) (w : world) :
  writable w path = true -> utf8 text = false ->
  write_file path text w = Raise encode_error (w_write path [] w).
Proof.
  unfold writable, write_file. intros Hw Hu. rewrite Hu.
  destruct (fs w !! path) as [[| |]|]; [reflexivity | reflexivity | discriminate | reflexivity].
Qed.

Lemma write_file_unopenable (path text : pystr) (e : exn) (w : world) :
  fs w !! path = Some (Unopenable e) -> write_file path text w = Raise e w.
Proof. unfold write_file. intros ->. reflexivity. Qed.

Lemma write_chunks_ok (path : pystr) (chunks : list pystr) (w : world) :
  writable w path = true -> utf8 (List.concat chunks) = true ->
  write_chunks path chunks w = Return tt (w_write path (List.concat chunks) w).
Proof.
  unfold writable, write_chunks. intros Hw Hu. rewrite (encoded_prefix_all _ Hu). simpl.
  destruct (fs w !! path) as [[| |]|]; [reflexivity | reflexivity | discriminate | reflexivity].
Qed.

(** ** The components, one by one *)

Section Components.
Variable E : Env.

Lemma nolasit_failu_present (cels c : pystr) (w : world) :
  fs w !! cels = Some (File c) -> nolasit_failu cels w = Return (loaded c) w.
Proof.
  intros H. unfold nolasit_failu, try_except, bind, read_file. rewrite H.
  reflexivity.
Qed.

Lemma nolasit_failu_undecodable (cels : pystr) (w : world) :
  fs w !! cels = Some Undecodable -> nolasit_failu cels w = Raise decode_error w.
Proof.
  intros H. unfold nolasit_failu, try_except, bind, read_file. rewrite H.
  reflexivity.
Qed.

Lemma nolasit_failu_unopenable (cels : pystr) (e : exn) (w : world) :
  fs w !! cels = Some (Unopenable e) ->
  nolasit_failu cels w
  = if is_class FileNotFoundError e
    then Return [] (w_print (msg_not_found cels) w)
    else Raise e w.
Proof.
  intros H. unfold nolasit_failu, try_except, bind, read_file. rewrite H.
  destruct (is_class FileNotFoundError e); reflexivity.
Qed.

Lemma nolasit_failu_absent (cels : pystr) (w : world) :
  fs w !! cels = None ->
  nolasit_failu cels w = Return [] (w_print (msg_not_found cels) w).
Proof.
  intros H. unfold nolasit_failu, try_except, bind, read_file. rewrite H.
  reflexivity.
Qed.

Lemma izveidot_promptu_eq (jd cv : pystr) (w : world) :
  writable w (lit "prompt.md") = true -> utf8 jd = true -> utf8 cv = true ->
  izveidot_promptu jd cv w
  = Return (strip (prompt_text jd cv))
      (w_write (lit "prompt.md") (strip (prompt_text jd cv)) w).
Proof.
  intros Hw Hjd Hcv. unfold izveidot_promptu, bind.
  rewrite write_file_ok; [reflexivity | exact Hw | apply utf8_prompt; assumption].
Qed.

Lemma saglabat_json_ok (dati : value) (fails : pystr) (w : world) :
  writable w fails = true -> utf8 (json_dumps E dati) = true ->
  saglabat_json E dati fails w = Return tt (w_write fails (json_dumps E dati) w).
Proof. intros Hw Hu. unfold saglabat_json. apply write_chunks_ok; assumption. Qed.

(** The constructor of the client runs before the [try]: what it raises
    leaves [izsaukt_modeli]. *)
Lemma izsaukt_modeli_no_client (e : exn) (prompt : pystr) (w : world) :
  OpenAI_new E = Some e -> izsaukt_modeli E prompt w = Raise e w.
Proof.
  intros H. unfold izsaukt_modeli, bind, new_client. rewrite H. reflexivity.
Qed.

Lemma izsaukt_modeli_service_error (e : exn) (prompt : pystr) (w : world) :
  OpenAI_new E = None ->
  completions_create E (calls w) (model_request prompt) = inr e ->
  izsaukt_modeli E prompt w
  = Return (failure_record e) (w_print (msg_model_error e) (w_call w)).
Proof.
  intros Hc Hs.
  unfold izsaukt_modeli, bind, new_client, try_except, chat_completions_create.
  rewrite Hc. unfold ret at 1. rewrite Hs. reflexivity.
Qed.

Lemma izsaukt_modeli_parsed (r : response) (t : pystr) (rest : list (option pystr))
      (v : value) (prompt : pystr) (w : world) :
  OpenAI_new E = None ->
  completions_create E (calls w) (model_request prompt) = inl r ->
  choices r = Some t :: rest ->
  json_loads E t = inl v ->
  izsaukt_modeli E prompt w = Return v (w_call w).
Proof.
  intros Hc Hs Hr Hj.
  unfold izsaukt_modeli, bind, new_client, try_except, chat_completions_create,
    first_choice_content, loads.
  rewrite Hc. unfold ret at 1. rewrite Hs, Hr. unfold ret at 1. rewrite Hj.
  reflexivity.
Qed.


(** Once the client is built, [izsaukt_modeli] returns a value whatever
    the service and the parser do. *)
Lemma izsaukt_modeli_returns (prompt : pystr) (w : world) :
  OpenAI_new E = None -> exists v w', izsaukt_modeli E prompt w = Return v w'.
Proof.
  intros Hc.
  unfold izsaukt_modeli, bind, new_client, try_except, chat_completions_create.
  rewrite Hc. unfold ret at 1.
  destruct (completions_create E (calls w) (model_request prompt)) as [r|e].
  2: { eexists _, _. reflexivity. }
  unfold first_choice_content.
  destruct (choices r) as [|[t|] rest].
  - eexists _, _. reflexivity.
  - unfold ret at 1. unfold loads.
    destruct (json_loads E t) as [v|e].
    + eexists _, _. reflexivity.
    + unfold raise. destruct (is_class JSONDecodeError e); eexists _, _; reflexivity.
  - eexists _, _. reflexivity.
Qed.

Lemma genereet_parskatu_dict (d : list (pystr * value)) (fails : pystr) (w : world)
      (ss ms : list value) :
  field_items d (lit "strengths") = Some ss ->
  field_items d (lit "missing_requirements") = Some ms ->
  genereet_parskatu E (VDict d) fails w
  = write_file fails
      (strip (parskats_text (strftime_now E (clock w))
                (fmt E (dict_get d (lit "match_score") (VStr (lit "N/A"))))
                (fmt E (dict_get d (lit "summary") (VStr (lit "Nav kopsavilkuma."))))
                (bullets E ss) (bullets E ms)
                (fmt E (dict_get d (lit "verdict") (VStr (lit "Nav sprieduma."))))))
      (w_tick w).
Proof.
  unfold field_items. intros Hs Hm.
  unfold genereet_parskatu, bind, datetime_now, get, iterate, ret.
  rewrite Hs, Hm. reflexivity.
Qed.

(** A value that is not a dict has no [get]: nothing is written. *)
Lemma genereet_parskatu_not_dict (v : value) (fails : pystr) (w : world) :
  (forall d, v <> VDict d) ->
  exists e, genereet_parskatu E v fails w = Raise e (w_tick w)
            /\ exn_cls e = AttributeError.
Proof.
  intros H. unfold genereet_parskatu, bind, datetime_now, get.
  destruct v; try (eexists; split; reflexivity).
  exfalso. eapply H. reflexivity.
Qed.

Lemma main_cv_skip (jd cv c : pystr) (w : world) :
  fs w !! cv_cels cv = Some (File c) -> strip c = [] ->
  main_cv E jd cv w = Return tt (w_print (msg_skip cv) w).
Proof.
  intros Hf Hs. apply loaded_empty_iff in Hs. unfold main_cv, bind.
  rewrite (nolasit_failu_present _ _ _ Hf), Hs. reflexivity.
Qed.

(** A turn for a candidate with text, up to the writing of the prompt. *)
Lemma main_cv_text (jd cv c : pystr) (w : world) :
  fs w !! cv_cels cv = Some (File c) -> strip c <> [] ->
  main_cv E jd cv w
  = bind (izveidot_promptu jd (loaded c))
      (fun prompts =>
         bind (izsaukt_modeli E prompts)
           (fun rezultats =>
              bind (saglabat_json E rezultats (json_fails cv))
                (fun _ =>
                   bind (genereet_parskatu E rezultats (md_fails cv))
                     (fun _ =>
                        print (lit "✅ Sagatavots: " ++ json_fails cv ++ lit " un "
                               ++ md_fails cv ++ NL)))))
      (w_print (msg_eval cv) w).
Proof.
  intros Hf Hs. unfold main_cv. unfold bind at 1.
  rewrite (nolasit_failu_present _ _ _ Hf).
  assert (Hl : loaded c <> []) by (rewrite loaded_empty_iff; exact Hs).
  destruct (loaded c) as [|x xs] eqn:Hc; [contradiction|].
  reflexivity.
Qed.

(** The same, once the prompt is written. *)
Lemma main_cv_step (jd cv c : pystr) (w : world) :
  fs w !! cv_cels cv = Some (File c) -> strip c <> [] ->
  writable w (lit "prompt.md") = true -> utf8 jd = true -> utf8 c = true ->
  main_cv E jd cv w
  = bind (izsaukt_modeli E (strip (prompt_text jd (loaded c))))
      (fun rezultats =>
         bind (saglabat_json E rezultats (json_fails cv))
           (fun _ =>
              bind (genereet_parskatu E rezultats (md_fails cv))
                (fun _ =>
                   print (lit "✅ Sagatavots: " ++ json_fails cv ++ lit " un "
                          ++ md_fails cv ++ NL))))
      (w_prompted cv (strip (prompt_text jd (loaded c))) w).
Proof.
  intros Hf Hs Hw Hjd Hc. rewrite (main_cv_text jd cv c w Hf Hs).
  unfold bind at 1. rewrite izveidot_promptu_eq; [reflexivity | exact Hw | exact Hjd |].
  apply utf8_loaded, Hc.
Qed.
End Components.

(** ** The loop, and what the program leaves alone *)

Lemma for_each_app {A} (l1 l2 : list A) (body : A -> M unit) (w : world) :
  for_each (l1 ++ l2) body w = bind (for_each l1 body) (fun _ => for_each l2 body) w.
Proof.
  revert w. induction l1 as [|x l1 IH]; intros w; simpl.
  - reflexivity.
  - unfold bind in *. destruct (body x w) as [[] w'|e w']; [|reflexivity].
    apply IH.
Qed.

Section Keeps.
Variable P : pystr -> Prop.

Lemma same_on_refl (w : world) : same_on P w w.
Proof. intros p _. reflexivity. Qed.

Lemma same_on_trans (w1 w2 w3 : world) :
  same_on P w1 w2 -> same_on P w2 w3 -> same_on P w1 w3.
Proof. intros H12 H23 p Hp. rewrite (H23 p Hp). apply H12, Hp. Qed.

Lemma same_on_write (path text : pystr) (w : world) :
  ~ P path -> same_on P w (w_write path text w).
Proof.
  intros Hpath p Hp. simpl. apply lookup_insert_ne. intros ->. contradiction.
Qed.

Lemma keeps_ret {A} (a : A) : keeps P (ret a).
Proof. intros w. apply same_on_refl. Qed.

Lemma keeps_raise {A} (e : exn) : keeps P (@raise A e).
Proof. intros w. apply same_on_refl. Qed.

Lemma keeps_print (s : pystr) : keeps P (print s).
Proof. intros w p _. reflexivity. Qed.

Lemma keeps_write (path text : pystr) : ~ P path -> keeps P (write_file path text).
Proof.
  intros H w. unfold write_file.
  destruct (fs w !! path) as [[| |]|]; try apply same_on_refl;
    destruct (utf8 text); apply same_on_write, H.
Qed.

Lemma keeps_write_chunks (path : pystr) (chunks : list pystr) :
  ~ P path -> keeps P (write_chunks path chunks).
Proof.
  intros H w. unfold write_chunks.
  destruct (fs w !! path) as [[| |]|]; try apply same_on_refl;
    destruct (snd (encoded_prefix chunks)); apply same_on_write, H.
Qed.

Lemma keeps_read (path : pystr) : keeps P (read_file path).
Proof.
  intros w. unfold read_file. destruct (fs w !! path) as [[| |]|]; apply same_on_refl.
Qed.

Lemma keeps_bind {A B} (m : M A) (k : A -> M B) :
  keeps P m -> (forall a, keeps P (k a)) -> keeps P (bind m k).
Proof.
  intros Hm Hk w. unfold bind. specialize (Hm w).
  destruct (m w) as [a w'|e w']; simpl in Hm.
  - eapply same_on_trans; [exact Hm | apply Hk].
  - exact Hm.
Qed.

Lemma keeps_try {A} (body : M A) (C : exn -> bool) (handler : exn -> M A) :
  keeps P body -> (forall e, keeps P (handler e)) -> keeps P (try_except body C handler).
Proof.
  intros Hm Hk w. unfold try_except. specialize (Hm w).
  destruct (body w) as [a w'|e w']; simpl in Hm; [exact Hm|].
  destruct (C e); [|exact Hm].
  eapply same_on_trans; [exact Hm | apply Hk].
Qed.

Lemma keeps_for_each {A} (l : list A) (body : A -> M unit) :
  (forall x, keeps P (body x)) -> keeps P (for_each l body).
Proof.
  intros Hb. induction l as [|x l IH]; simpl.
  - apply keeps_ret.
  - apply keeps_bind; [apply Hb | intros _; exact IH].
Qed.

Lemma keeps_nolasit_failu (cels : pystr) : keeps P (nolasit_failu cels).
Proof.
  unfold nolasit_failu. apply keeps_try.
  - apply keeps_bind; [apply keeps_read | intros; apply keeps_ret].
  - intros e. apply keeps_bind; [apply keeps_print | intros; apply keeps_ret].
Qed.

Lemma keeps_get (dati : value) (k : pystr) (dflt : value) : keeps P (get dati k dflt).
Proof. unfold get. destruct dati; first [apply keeps_raise | apply keeps_ret]. Qed.

Lemma keeps_iterate (v : value) : keeps P (iterate v).
Proof. unfold iterate. destruct (py_iter v); [apply keeps_ret | apply keeps_raise]. Qed.

Variable E : Env.

Lemma keeps_izsaukt_modeli (prompt : pystr) : keeps P (izsaukt_modeli E prompt).
Proof.
  unfold izsaukt_modeli. apply keeps_bind.
  { unfold new_client. destruct (OpenAI_new E); [apply keeps_raise | apply keeps_ret]. }
  intros _. apply keeps_try.
  - apply keeps_bind.
    { intros w. unfold chat_completions_create.
      destruct (completions_create E (calls w) (model_request prompt));
        intros p _; reflexivity. }
    intros r. apply keeps_bind.
    { unfold first_choice_content.
      destruct (choices r) as [|[t|] ?];
        [apply keeps_raise | apply keeps_ret | apply keeps_ret]. }
    intros v. apply keeps_try.
    + unfold loads. destruct v; try apply keeps_raise.
      destruct (json_loads E s); [apply keeps_ret | apply keeps_raise].
    + intros e. apply keeps_bind; [apply keeps_print | intros; apply keeps_ret].
  - intros e. apply keeps_bind; [apply keeps_print | intros; apply keeps_ret].
Qed.

Lemma keeps_genereet_parskatu (dati : value) (fails : pystr) :
  ~ P fails -> keeps P (genereet_parskatu E dati fails).
Proof.
  intros Hf. unfold genereet_parskatu.
  apply keeps_bind; [intros w p _; reflexivity | intros datums].
  repeat first
    [ apply keeps_bind; [apply keeps_get | intros ?]
    | apply keeps_bind; [apply keeps_iterate | intros ?] ].
  apply keeps_write, Hf.
Qed.

(** What a turn of the loop does once the prompt is built. *)
Lemma keeps_reports (cv prompts : pystr) :
  ~ P (json_fails cv) -> ~ P (md_fails cv) ->
  keeps P
    (bind (izsaukt_modeli E prompts)
       (fun rezultats =>
          bind (saglabat_json E rezultats (json_fails cv))
            (fun _ =>
               bind (genereet_parskatu E rezultats (md_fails cv))
                 (fun _ =>
                    print (lit "✅ Sagatavots: " ++ json_fails cv ++ lit " un "
                           ++ md_fails cv ++ NL))))).
Proof.
  intros Hj Hm.
  apply keeps_bind; [apply keeps_izsaukt_modeli | intros r].
  apply keeps_bind; [apply keeps_write_chunks, Hj | intros _].
  apply keeps_bind; [apply keeps_genereet_parskatu, Hm | intros _].
  apply keeps_print.
Qed.
End Keeps.

Lemma prompt_md_not_input : ~ input_paths (lit "prompt.md").
Proof. unfold input_paths. vm_compute. discriminate. Qed.

Lemma json_fails_not_input (cv : pystr) : ~ input_paths (json_fails cv).
Proof. unfold input_paths. vm_compute. discriminate. Qed.

Lemma md_fails_not_input (cv : pystr) : ~ input_paths (md_fails cv).
Proof. unfold input_paths. vm_compute. discriminate. Qed.

Lemma cv_cels_is_input (cv : pystr) : input_paths (cv_cels cv).
Proof.
  unfold input_paths, is_input_path, cv_cels. apply startswith_spec. exists cv.
  reflexivity.
Qed.

Lemma json_fails_not_prompt (cv : pystr) : ~ the_prompt_file (json_fails cv).
Proof. unfold the_prompt_file. intros H. vm_compute in H. discriminate. Qed.

Lemma md_fails_not_prompt (cv : pystr) : ~ the_prompt_file (md_fails cv).
Proof. unfold the_prompt_file. intros H. vm_compute in H. discriminate. Qed.

Section Frame.
Variable E : Env.

Lemma keeps_main_cv (jd cv : pystr) : keeps input_paths (main_cv E jd cv).
Proof.
  unfold main_cv. apply keeps_bind; [apply keeps_nolasit_failu | intros t].
  destruct (str_not t); [apply keeps_print|].
  apply keeps_bind; [apply keeps_print | intros _].
  apply keeps_bind.
  { unfold izveidot_promptu. apply keeps_bind.
    - apply keeps_write, prompt_md_not_input.
    - intros; apply keeps_ret. }
  intros p. apply keeps_reports; [apply json_fails_not_input | apply md_fails_not_input].
Qed.

Lemma keeps_loop (jd : pystr) (cvs : list pystr) :
  keeps input_paths (for_each cvs (main_cv E jd)).
Proof. apply keeps_for_each. intros cv. apply keeps_main_cv. Qed.

(** [main] once the job description is there. *)
Lemma main_with_jd (c : pystr) (w : world) :
  fs w !! lit "sample_inputs/jd.txt" = Some (File c) -> strip c <> [] ->
  main E w
  = bind (for_each (glob_cv (listing w)) (main_cv E (loaded c)))
      (fun _ =>
         print (lit "🎯 Visi CV ir novērtēti un rezultāti saglabāti mapē 'outputs'."))
      (w_print msg_start w).
Proof.
  intros Hf Hs. unfold main. unfold bind at 1 2. unfold print at 1.
  rewrite (nolasit_failu_present _ c) by exact Hf.
  assert (Hl : loaded c <> []) by (rewrite loaded_empty_iff; exact Hs).
  destruct (loaded c) as [|x xs] eqn:Hc; [contradiction|].
  reflexivity.
Qed.
End Frame.

(** ** The job description is missing or blank *)

(** C4.  When the file of the job description is absent, [main] prints the
    warning of the loader and the fatal message and returns: no file is
    written, the file system is as before, the completion client is not
    called (so no request is sent), and no candidate is processed. *)
Theorem main_missing_jd (E : Env) (w : world) :
  fs w !! lit "sample_inputs/jd.txt" = None ->
  exists w',
    main E w = Return tt w'
    /\ written w' = written w
    /\ fs w' = fs w
    /\ calls w' = calls w
    /\ console w'
       = console w ++ [msg_start; msg_not_found (lit "sample_inputs/jd.txt"); msg_fatal].
Proof.
  intros H. eexists. split.
  - unfold main. unfold bind at 1 2. unfold print at 1.
    rewrite nolasit_failu_absent by exact H. reflexivity.
  - simpl. rewrite <- !app_assoc. repeat split; reflexivity.
Qed.

Lemma main_missing_jd_witness :
  exists w',
    main alice_env no_jd_world = Return tt w'
    /\ written w' = written no_jd_world
    /\ fs w' = fs no_jd_world
    /\ calls w' = calls no_jd_world
    /\ console w'
       = console no_jd_world
         ++ [msg_start; msg_not_found (lit "sample_inputs/jd.txt"); msg_fatal].
Proof. apply (main_missing_jd alice_env no_jd_world). vm_compute. reflexivity. Defined.

(** C9.  A job description file that holds only white space makes [main]
    stop as an absent one does: the fatal message, nothing written, the
    completion client not called.  A candidate file that holds only white space is skipped
    with the warning, which is what happens to an empty one ([c = []]). *)
Theorem blank_file_is_no_file (E : Env) (w wc : world) (c jd cv : pystr) :
  all_space c ->
  fs w !! lit "sample_inputs/jd.txt" = Some (File c) ->
  fs wc !! cv_cels cv = Some (File c) ->
  (exists w',
      main E w = Return tt w'
      /\ written w' = written w
      /\ fs w' = fs w
      /\ calls w' = calls w
      /\ console w' = console w ++ [msg_start; msg_fatal])
  /\ main_cv E jd cv wc = Return tt (w_print (msg_skip cv) wc).
Proof.
  intros Hc Hjd Hcv. apply strip_empty_iff in Hc. split.
  - eexists. split.
    + unfold main. unfold bind at 1 2. unfold print at 1.
      rewrite (nolasit_failu_present _ c) by exact Hjd.
      rewrite (proj2 (loaded_empty_iff c) Hc). reflexivity.
    + simpl. rewrite <- !app_assoc. repeat split; reflexivity.
  - apply (main_cv_skip E jd cv c); assumption.
Qed.

Lemma blank_all_space : all_space blank.
Proof. unfold all_space. repeat constructor. Qed.

Lemma blank_file_is_no_file_witness :
  (exists w',
      main alice_env blank_jd_world = Return tt w'
      /\ written w' = written blank_jd_world
      /\ fs w' = fs blank_jd_world
      /\ calls w' = calls blank_jd_world
      /\ console w' = console blank_jd_world ++ [msg_start; msg_fatal])
  /\ main_cv alice_env (lit "JD") (lit "cv_blank.txt") mixed_world
     = Return tt (w_print (msg_skip (lit "cv_blank.txt")) mixed_world).
Proof.
  apply (blank_file_is_no_file alice_env blank_jd_world mixed_world blank).
  - exact blank_all_space.
  - vm_compute. reflexivity.
  - vm_compute. reflexivity.
Defined.

(** ** Candidates without text *)

(** C7.  A candidate whose file is empty once trimmed writes no file and
    calls no model: its turn only prints the warning.  The loop goes on:
    the candidates before it and after it are processed as they would be
    without it, with the warning printed in between. *)
Theorem empty_candidate_skipped (E : Env) (jd : pystr) (pre post : list pystr)
        (cv c : pystr) (w : world) :
  fs w !! cv_cels cv = Some (File c) ->
  strip c = [] ->
  main_cv E jd cv w = Return tt (w_print (msg_skip cv) w)
  /\ for_each (pre ++ cv :: post) (main_cv E jd) w
     = bind (for_each pre (main_cv E jd))
         (fun _ => bind (print (msg_skip cv)) (fun _ => for_each post (main_cv E jd))) w.
Proof.
  intros Hf Hs. split; [apply (main_cv_skip E jd cv c); assumption|].
  rewrite for_each_app. unfold bind.
  pose proof (keeps_loop E jd pre w) as Hk.
  destruct (for_each pre (main_cv E jd) w) as [[] w1|e w1]; [|reflexivity].
  simpl in Hk. cbn [for_each]. unfold bind.
  rewrite (main_cv_skip E jd cv c w1).
  - reflexivity.
  - rewrite (Hk _ (cv_cels_is_input cv)). exact Hf.
  - exact Hs.
Qed.

Lemma empty_candidate_skipped_witness :
  main_cv alice_env (lit "JD") (lit "cv_empty.txt") mixed_world
  = Return tt (w_print (msg_skip (lit "cv_empty.txt")) mixed_world)
  /\ for_each ([lit "cv_alice.txt"] ++ lit "cv_empty.txt" :: [lit "cv_bob.txt"])
       (main_cv alice_env (lit "JD")) mixed_world
     = bind (for_each [lit "cv_alice.txt"] (main_cv alice_env (lit "JD")))
         (fun _ => bind (print (msg_skip (lit "cv_empty.txt")))
                     (fun _ => for_each [lit "cv_bob.txt"] (main_cv alice_env (lit "JD"))))
         mixed_world.
Proof.
  apply (empty_candidate_skipped alice_env (lit "JD") [lit "cv_alice.txt"]
           [lit "cv_bob.txt"] (lit "cv_empty.txt") []).
  - vm_compute. reflexivity.
  - reflexivity.
Defined.

(** ** The report *)

Lemma parskats_text_stripped (a b c d e f : pystr) :
  parskats_text a b c d e f = parskats_stripped a b c d e f ++ NL.
Proof.
  unfold parskats_text, parskats_stripped. rewrite <- !app_assoc. reflexivity.
Qed.

Lemma lstrip_parskats (a b c d e f : pystr) :
  lstrip (parskats_text a b c d e f) = parskats_text a b c d e f.
Proof. vm_compute. reflexivity. Qed.

Lemma rstrip_keep_app (x y : pystr) :
  rstrip y = y /\ y <> [] -> rstrip (x ++ y) = x ++ y /\ x ++ y <> [].
Proof.
  intros [Hy Hne]. split.
  - rewrite rstrip_app_keep; rewrite Hy; [reflexivity | exact Hne].
  - intros H. apply app_eq_nil in H. destruct H as [_ H]. contradiction.
Qed.

Lemma rstrip_parskats_stripped (a b c d e f : pystr) :
  rstrip (parskats_stripped a b c d e f) = parskats_stripped a b c d e f.
Proof.
  unfold parskats_stripped.
  refine (proj1 _). repeat apply rstrip_keep_app.
  split; [vm_compute; reflexivity | discriminate].
Qed.

(** What is written is the text of the report without its last newline. *)
Lemma strip_parskats_text (a b c d e f : pystr) :
  strip (parskats_text a b c d e f) = parskats_stripped a b c d e f.
Proof.
  unfold strip. rewrite lstrip_parskats, parskats_text_stripped, rstrip_app.
  change (rstrip NL) with (@nil N). apply rstrip_parskats_stripped.
Qed.

Lemma present_iterable_items (d : list (pystr * value)) (k : pystr) :
  present_iterable d k ->
  exists ss, field_items d k = Some ss
             /\ (dict_lookup k d = None \/ dict_lookup k d = Some (VList []) -> ss = []).
Proof.
  intros H. unfold field_items, dict_get. specialize (H (dict_get d k VNone)).
  unfold dict_get in H. destruct (dict_lookup k d) as [v|] eqn:Hk.
  - destruct (py_iter v) as [ss|] eqn:Hv; [|exfalso; apply H; reflexivity].
    exists ss. split; [reflexivity|].
    intros [Hn|Hn]; [discriminate|]. injection Hn as ->. simpl in Hv. congruence.
  - exists []. split; [reflexivity | intros _; reflexivity].
Qed.

Lemma report_text_eq (E : Env) (datums : pystr) (d : list (pystr * value))
      (ss ms : list value) :
  field_items d (lit "strengths") = Some ss ->
  field_items d (lit "missing_requirements") = Some ms ->
  strip (parskats_text datums
           (fmt E (dict_get d (lit "match_score") (VStr (lit "N/A"))))
           (fmt E (dict_get d (lit "summary") (VStr (lit "Nav kopsavilkuma."))))
           (bullets E ss) (bullets E ms)
           (fmt E (dict_get d (lit "verdict") (VStr (lit "Nav sprieduma.")))))
  = report_text E datums d.
Proof.
  intros Hs Hm. rewrite strip_parskats_text. unfold report_text.
  rewrite Hs, Hm. reflexivity.
Qed.

(** What [genereet_parskatu] does with a dictionary that can be rendered:
    it reads the clock and writes the text of the report. *)
Lemma genereet_parskatu_writes (E : Env) (d : list (pystr * value)) (fails : pystr)
      (w : world) :
  present_iterable d (lit "strengths") ->
  present_iterable d (lit "missing_requirements") ->
  genereet_parskatu E (VDict d) fails w
  = write_file fails (report_text E (strftime_now E (clock w)) d) (w_tick w).
Proof.
  intros Hs Hm.
  destruct (present_iterable_items _ _ Hs) as [ss [Hss _]].
  destruct (present_iterable_items _ _ Hm) as [ms [Hms _]].
  rewrite (genereet_parskatu_dict E d fails w ss ms Hss Hms).
  rewrite (report_text_eq E _ d ss ms Hss Hms). reflexivity.
Qed.

(** C5, as the code has it.  Rendering a result dictionary never fails when
    the two list fields, where present, can be iterated, the text of the
    report can be encoded as UTF-8 and the file can be opened for writing;
    in particular for such a dictionary that lacks any of the five fields.
    The report written has the fixed placeholder in the place of every
    missing field, and the placeholder line in the place of a missing or
    empty list. *)
Theorem genereet_parskatu_total (E : Env) (d : list (pystr * value)) (fails : pystr)
        (w : world) :
  present_iterable d (lit "strengths") ->
  present_iterable d (lit "missing_requirements") ->
  utf8 (report_text E (strftime_now E (clock w)) d) = true ->
  writable w fails = true ->
  exists score summary stipras trukstosas verdict,
    genereet_parskatu E (VDict d) fails w
    = Return tt
        (w_write fails
           (parskats_stripped (strftime_now E (clock w))
              score summary stipras trukstosas verdict)
           (w_tick w))
    /\ (dict_lookup (lit "match_score") d = None -> score = lit "N/A")
    /\ (dict_lookup (lit "summary") d = None -> summary = lit "Nav kopsavilkuma.")
    /\ (dict_lookup (lit "strengths") d = None
        \/ dict_lookup (lit "strengths") d = Some (VList []) ->
        stipras = lit "Nav norādīts.")
    /\ (dict_lookup (lit "missing_requirements") d = None
        \/ dict_lookup (lit "missing_requirements") d = Some (VList []) ->
        trukstosas = lit "Nav norādīts.")
    /\ (dict_lookup (lit "verdict") d = None -> verdict = lit "Nav sprieduma.").
Proof.
  intros Hs Hm Hu Hw.
  destruct (present_iterable_items _ _ Hs) as [ss [Hss Hss0]].
  destruct (present_iterable_items _ _ Hm) as [ms [Hms Hms0]].
  eexists _, _, _, _, _. split.
  - rewrite (genereet_parskatu_writes E d fails w Hs Hm).
    rewrite write_file_ok; [|exact Hw | exact Hu]. unfold report_text. reflexivity.
  - unfold dict_get. rewrite Hss, Hms. simpl default. repeat split.
    + intros ->. reflexivity.
    + intros ->. reflexivity.
    + intros H. rewrite (Hss0 H). reflexivity.
    + intros H. rewrite (Hms0 H). reflexivity.
    + intros ->. reflexivity.
Qed.

Lemma genereet_parskatu_total_witness :
  exists score summary stipras trukstosas verdict,
    genereet_parskatu alice_env (VDict [(lit "error", VStr (lit "Connection error."))])
      (lit "outputs/cv_alice_report.md") alice_world
    = Return tt
        (w_write (lit "outputs/cv_alice_report.md")
           (parskats_stripped (strftime_now alice_env (clock alice_world))
              score summary stipras trukstosas verdict)
           (w_tick alice_world))
    /\ (dict_lookup (lit "match_score") [(lit "error", VStr (lit "Connection error."))]
        = None -> score = lit "N/A")
    /\ (dict_lookup (lit "summary") [(lit "error", VStr (lit "Connection error."))]
        = None -> summary = lit "Nav kopsavilkuma.")
    /\ (dict_lookup (lit "strengths") [(lit "error", VStr (lit "Connection error."))]
        = None
        \/ dict_lookup (lit "strengths") [(lit "error", VStr (lit "Connection error."))]
           = Some (VList []) ->
        stipras = lit "Nav norādīts.")
    /\ (dict_lookup (lit "missing_requirements")
          [(lit "error", VStr (lit "Connection error."))] = None
        \/ dict_lookup (lit "missing_requirements")
             [(lit "error", VStr (lit "Connection error."))] = Some (VList []) ->
        trukstosas = lit "Nav norādīts.")
    /\ (dict_lookup (lit "verdict") [(lit "error", VStr (lit "Connection error."))]
        = None -> verdict = lit "Nav sprieduma.").
Proof.
  apply (genereet_parskatu_total alice_env
           [(lit "error", VStr (lit "Connection error."))]).
  - intros v H. vm_compute in H. discriminate.
  - intros v H. vm_compute in H. discriminate.
  - vm_compute. reflexivity.
  - vm_compute. reflexivity.
Defined.

(** C5, as stated, fails: the dictionary has a summary and lacks the four
    other fields, and the summary holds a lone surrogate, as [json.loads]
    yields for the escape \ud800.  The text of the report cannot be encoded:
    the file, emptied when it was opened, stays empty and
    [UnicodeEncodeError] leaves the renderer. *)
Lemma lone_surrogate_summary_not_rendered :
  dict_lookup (lit "match_score") lone_obj = None
  /\ dict_lookup (lit "strengths") lone_obj = None
  /\ dict_lookup (lit "missing_requirements") lone_obj = None
  /\ dict_lookup (lit "verdict") lone_obj = None
  /\ json_loads lone_env lone_text = inl (VDict lone_obj)
  /\ exists e w',
      genereet_parskatu lone_env (VDict lone_obj) (lit "outputs/cv_alice_report.md")
        alice_world
      = Raise e w'
      /\ exn_cls e = UnicodeEncodeError
      /\ fs w' !! lit "outputs/cv_alice_report.md" = Some (File []).
Proof.
  repeat (split; [vm_compute; reflexivity|]).
  eexists _, _. split; [vm_compute; reflexivity|].
  split; vm_compute; reflexivity.
Qed.

(** ** One turn of the loop *)

(** [izsaukt_modeli] writes no file. *)
Lemma izsaukt_modeli_world (E : Env) (prompt : pystr) (w : world) :
  fs (out_world (izsaukt_modeli E prompt w)) = fs w
  /\ written (out_world (izsaukt_modeli E prompt w)) = written w
  /\ clock (out_world (izsaukt_modeli E prompt w)) = clock w.
Proof.
  remember (izsaukt_modeli E prompt w) as o eqn:Ho.
  unfold izsaukt_modeli, bind, new_client, try_except, chat_completions_create,
    is_Exception in Ho.
  destruct (OpenAI_new E) as [e|]; [by subst o|]. unfold ret at 1 in Ho.
  destruct (completions_create E (calls w) (model_request prompt)) as [r|e];
    [|by subst o].
  unfold first_choice_content in Ho.
  destruct (choices r) as [|[t|] rest]; [by subst o | | by subst o].
  unfold ret at 1 in Ho. unfold loads in Ho.
  destruct (json_loads E t) as [v|e]; [by subst o|].
  unfold raise in Ho. destruct (is_class JSONDecodeError e); by subst o.
Qed.

Lemma json_fails_ne_md_fails (cv : pystr) : json_fails cv <> md_fails cv.
Proof.
  unfold json_fails, md_fails. intros H.
  apply app_inv_head in H. apply app_inv_head in H. vm_compute in H. discriminate.
Qed.

Lemma outputs_writable_spec (w : world) (cv : pystr) :
  outputs_writable w cv = true
  <-> writable w (lit "prompt.md") = true
      /\ writable w (json_fails cv) = true
      /\ writable w (md_fails cv) = true.
Proof. unfold outputs_writable. rewrite !andb_true_iff. tauto. Qed.

(** A turn whose call of the model returns a dictionary that can be
    rendered, when the three texts can be encoded and their files opened. *)
Lemma main_cv_rendered (E : Env) (jd cv c : pystr) (w w2 : world)
      (d : list (pystr * value)) :
  fs w !! cv_cels cv = Some (File c) ->
  strip c <> [] ->
  utf8 jd = true ->
  utf8 c = true ->
  outputs_writable w cv = true ->
  izsaukt_modeli E (strip (prompt_text jd (loaded c)))
    (w_prompted cv (strip (prompt_text jd (loaded c))) w) = Return (VDict d) w2 ->
  present_iterable d (lit "strengths") ->
  present_iterable d (lit "missing_requirements") ->
  utf8 (json_dumps E (VDict d)) = true ->
  utf8 (report_text E (strftime_now E (clock w)) d) = true ->
  exists w',
    main_cv E jd cv w = Return tt w'
    /\ written w'
       = written w ++ [(lit "prompt.md", strip (prompt_text jd (loaded c)));
                       (json_fails cv, json_dumps E (VDict d));
                       (md_fails cv, report_text E (strftime_now E (clock w)) d)]
    /\ fs w'
       = <[md_fails cv := File (report_text E (strftime_now E (clock w)) d)]>
           (<[json_fails cv := File (json_dumps E (VDict d))]>
              (<[lit "prompt.md" := File (strip (prompt_text jd (loaded c)))]> (fs w)))
    /\ calls w' = calls w2
    /\ console w'
       = console w2 ++ [lit "✅ Sagatavots: " ++ json_fails cv ++ lit " un "
                        ++ md_fails cv ++ NL].
Proof.
  intros Hf Hs Hjd Hc Hout Hcall Hss Hms Hju Hru.
  apply outputs_writable_spec in Hout. destruct Hout as [Hwp [Hwj Hwm]].
  pose proof (izsaukt_modeli_world E (strip (prompt_text jd (loaded c)))
                (w_prompted cv (strip (prompt_text jd (loaded c))) w)) as Hw.
  rewrite Hcall in Hw. simpl in Hw. destruct Hw as [Hfs [Hwr Hck]].
  assert (Hwj2 : writable w2 (json_fails cv) = true).
  { unfold writable. rewrite Hfs, lookup_insert_ne; [exact Hwj|].
    intros H. apply (json_fails_not_prompt cv). symmetry. exact H. }
  assert (Hwm2 : writable (w_tick (w_write (json_fails cv) (json_dumps E (VDict d)) w2))
                   (md_fails cv) = true).
  { unfold writable. simpl. rewrite lookup_insert_ne by apply json_fails_ne_md_fails.
    rewrite Hfs, lookup_insert_ne; [exact Hwm|].
    intros H. apply (md_fails_not_prompt cv). symmetry. exact H. }
  eexists. split; [|split; [|split; [|split]]].
  - rewrite (main_cv_step E jd cv c w Hf Hs Hwp Hjd Hc). unfold bind at 1. rewrite Hcall.
    unfold bind at 1. rewrite (saglabat_json_ok E _ _ _ Hwj2 Hju).
    unfold bind at 1. rewrite (genereet_parskatu_writes E d (md_fails cv) _ Hss Hms).
    simpl clock. rewrite Hck.
    rewrite write_file_ok; [reflexivity | exact Hwm2 | exact Hru].
  - simpl. rewrite Hwr, <- !app_assoc. reflexivity.
  - simpl. rewrite Hfs. reflexivity.
  - reflexivity.
  - reflexivity.
Qed.

Lemma failure_record_renderable (e : exn) (k : pystr) :
  k = lit "strengths" \/ k = lit "missing_requirements" ->
  present_iterable [(lit "error", VStr (exn_msg e))] k.
Proof. intros [-> | ->] v H; vm_compute in H; discriminate. Qed.


(** C1, as the code has it.  For a candidate whose loaded text is not
    empty, when the call of the model returns a dictionary whose
    [strengths] and [missing_requirements], where present, can be iterated
    (every error record is such a dictionary), the texts can be encoded as
    UTF-8 (they hold no lone surrogate) and the three files of the turn can
    be opened for writing, the turn of the loop ends normally and has
    written, after the prompt, exactly the JSON file of the candidate,
    holding that dictionary, and its Markdown report. *)
Theorem loaded_candidate_gets_both_reports (E : Env) (jd cv c : pystr) (w w2 : world)
        (d : list (pystr * value)) :
  fs w !! cv_cels cv = Some (File c) ->
  strip c <> [] ->
  utf8 jd = true ->
  utf8 c = true ->
  outputs_writable w cv = true ->
  izsaukt_modeli E (strip (prompt_text jd (loaded c)))
    (w_prompted cv (strip (prompt_text jd (loaded c))) w) = Return (VDict d) w2 ->
  present_iterable d (lit "strengths") ->
  present_iterable d (lit "missing_requirements") ->
  utf8 (json_dumps E (VDict d)) = true ->
  utf8 (report_text E (strftime_now E (clock w)) d) = true ->
  writes_both_reports E jd cv w
  /\ exists w' report,
      main_cv E jd cv w = Return tt w'
      /\ written w'
         = written w ++ [(lit "prompt.md", strip (prompt_text jd (loaded c)));
                         (json_fails cv, json_dumps E (VDict d));
                         (md_fails cv, report)]
      /\ fs w' !! json_fails cv = Some (File (json_dumps E (VDict d)))
      /\ fs w' !! md_fails cv = Some (File report)
      /\ report = report_text E (strftime_now E (clock w)) d.
Proof.
  intros Hf Hs Hjd Hc Hout Hcall Hss Hms Hju Hru.
  destruct (main_cv_rendered E jd cv c w w2 d Hf Hs Hjd Hc Hout Hcall Hss Hms Hju Hru)
    as [w' [Hrun [Hwr [Hfs _]]]].
  split.
  - unfold writes_both_reports. rewrite Hrun. simpl. eexists _, _, _. exact Hwr.
  - exists w', (report_text E (strftime_now E (clock w)) d).
    repeat split; try assumption.
    + rewrite Hfs, lookup_insert_ne by (apply not_eq_sym, json_fails_ne_md_fails).
      apply lookup_insert_eq.
    + rewrite Hfs. apply lookup_insert_eq.
Qed.

Lemma loaded_candidate_gets_both_reports_witness :
  writes_both_reports down_env (lit "JD") (lit "cv_alice.txt") alice_world
  /\ exists w' report,
      main_cv down_env (lit "JD") (lit "cv_alice.txt") alice_world = Return tt w'
      /\ written w'
         = written alice_world
           ++ [(lit "prompt.md",
                strip (prompt_text (lit "JD") (loaded (lit "3 years Go, led a team"))));
               (json_fails (lit "cv_alice.txt"),
                json_dumps down_env (VDict [(lit "error", VStr (exn_msg down_error))]));
               (md_fails (lit "cv_alice.txt"), report)]
      /\ fs w' !! json_fails (lit "cv_alice.txt")
         = Some (File (json_dumps down_env
                         (VDict [(lit "error", VStr (exn_msg down_error))])))
      /\ fs w' !! md_fails (lit "cv_alice.txt") = Some (File report)
      /\ report
         = report_text down_env (strftime_now down_env (clock alice_world))
             [(lit "error", VStr (exn_msg down_error))].
Proof.
  apply (loaded_candidate_gets_both_reports down_env (lit "JD") (lit "cv_alice.txt")
           (lit "3 years Go, led a team") alice_world
           (out_world
              (izsaukt_modeli down_env
                 (strip (prompt_text (lit "JD") (loaded (lit "3 years Go, led a team"))))
                 (w_prompted (lit "cv_alice.txt")
                    (strip (prompt_text (lit "JD") (loaded (lit "3 years Go, led a team"))))
                    alice_world)))
           [(lit "error", VStr (exn_msg down_error))]).
  - vm_compute. reflexivity.
  - vm_compute. discriminate.
  - vm_compute. reflexivity.
  - vm_compute. reflexivity.
  - vm_compute. reflexivity.
  - vm_compute. reflexivity.
  - apply failure_record_renderable. left. reflexivity.
  - apply failure_record_renderable. right. reflexivity.
  - vm_compute. reflexivity.
  - vm_compute. reflexivity.
Defined.

(** C1, as stated, fails: the candidate has text and the model answers with
    a JSON object whose [strengths] is [null].  The JSON file is written,
    then rendering raises [TypeError]: no report is written and the
    exception leaves the turn. *)
Lemma null_strengths_no_report :
  (exists c, fs alice_world !! cv_cels (lit "cv_alice.txt") = Some (File c)
             /\ strip c <> [])
  /\ ~ writes_both_reports null_env (lit "JD") (lit "cv_alice.txt") alice_world
  /\ exists e w',
      main_cv null_env (lit "JD") (lit "cv_alice.txt") alice_world = Raise e w'
      /\ exn_cls e = TypeError
      /\ List.map fst (written w') = [lit "prompt.md"; lit "outputs/cv_alice.json"].
Proof.
  split; [|split].
  - exists (lit "3 years Go, led a team"). split; [vm_compute; reflexivity|].
    vm_compute. discriminate.
  - intros [p [j [r H]]]. apply (f_equal (@length _)) in H.
    vm_compute in H. discriminate.
  - eexists _, _. split; [vm_compute; reflexivity|].
    split; vm_compute; reflexivity.
Qed.

(** The same turn with an answer whose summary holds a lone surrogate: the
    JSON file is cut short by [UnicodeEncodeError] and no report is
    written. *)
Example lone_surrogate_no_report :
  json_loads lone_env lone_text = inl (VDict lone_obj)
  /\ present_iterable lone_obj (lit "strengths")
  /\ present_iterable lone_obj (lit "missing_requirements")
  /\ ~ writes_both_reports lone_env (lit "JD") (lit "cv_alice.txt") alice_world
  /\ exists w',
      main_cv lone_env (lit "JD") (lit "cv_alice.txt") alice_world
      = Raise encode_error w'
      /\ List.map fst (written w') = [lit "prompt.md"; lit "outputs/cv_alice.json"].
Proof.
  split; [vm_compute; reflexivity|].
  split; [intros v H; vm_compute in H; discriminate|].
  split; [intros v H; vm_compute in H; discriminate|].
  split.
  - intros [p [j [r H]]]. apply (f_equal (@length _)) in H.
    vm_compute in H. discriminate.
  - eexists. split; vm_compute; reflexivity.
Qed.

(** ** The completion client *)

(** C2, at the failing input.  With no credential the constructor of the
    client raises, and since it is called before the [try], the exception
    leaves [izsaukt_modeli] for every prompt; in [main] it ends the loop and
    the run at the first candidate, after the prompt file alone was written. *)
Theorem izsaukt_modeli_constructor_escapes :
  (forall prompt w, izsaukt_modeli no_key_env prompt w = Raise no_key_error w)
  /\ exists w',
      main no_key_env alice_world = Raise no_key_error w'
      /\ List.map fst (written w') = [lit "prompt.md"].
Proof.
  split.
  - intros prompt w. apply izsaukt_modeli_no_client. reflexivity.
  - eexists. split; vm_compute; reflexivity.
Qed.

Lemma utf8_placeholder_report (datums : pystr) :
  utf8 datums = true -> utf8 (placeholder_report datums) = true.
Proof.
  intros H. unfold placeholder_report, parskats_stripped.
  repeat (apply utf8_app_true; [first [exact H | vm_compute; reflexivity]|]).
  vm_compute. reflexivity.
Qed.




(** ** The prompt file *)

(** After the turn of a candidate with text, the prompt file holds the
    prompt of that candidate, whether the turn ended normally or not. *)
Lemma main_cv_prompt_md (E : Env) (jd cv c : pystr) (w : world) :
  fs w !! cv_cels cv = Some (File c) ->
  strip c <> [] ->
  writable w (lit "prompt.md") = true -> utf8 jd = true -> utf8 c = true ->
  fs (out_world (main_cv E jd cv w)) !! lit "prompt.md"
  = Some (File (strip (prompt_text jd (loaded c)))).
Proof.
  intros Hf Hs Hw Hjd Hc. rewrite (main_cv_step E jd cv c w Hf Hs Hw Hjd Hc).
  rewrite (keeps_reports the_prompt_file E cv _
             (json_fails_not_prompt cv) (md_fails_not_prompt cv) _ (lit "prompt.md"))
    by reflexivity.
  apply lookup_insert_eq.
Qed.

(** Candidates without text leave the files as they are. *)
Lemma for_each_all_skipped (E : Env) (jd : pystr) (cvs : list pystr) (w : world) :
  (forall cv, In cv cvs ->
              exists c, fs w !! cv_cels cv = Some (File c) /\ strip c = []) ->
  exists w', for_each cvs (main_cv E jd) w = Return tt w' /\ fs w' = fs w.
Proof.
  revert w. induction cvs as [|cv cvs IH]; intros w H.
  - exists w. split; reflexivity.
  - destruct (H cv (or_introl eq_refl)) as [c [Hc Hs]].
    cbn [for_each]. unfold bind. rewrite (main_cv_skip E jd cv c w Hc Hs).
    destruct (IH (w_print (msg_skip cv) w)) as [w' [Hrun Hfs]].
    { intros x Hx. apply H. right. exact Hx. }
    exists w'. split; [exact Hrun | exact Hfs].
Qed.

Lemma write_file_inv (path text : pystr) (w w' : world) :
  write_file path text w = Return tt w' -> w' = w_write path text w.
Proof.
  unfold write_file.
  destruct (fs w !! path) as [[| |]|]; try discriminate;
    destruct (utf8 text); try discriminate; intros [= <-]; reflexivity.
Qed.

Lemma write_chunks_inv (path : pystr) (chunks : list pystr) (w w' : world) :
  write_chunks path chunks w = Return tt w' -> w' = w_write path (List.concat chunks) w.
Proof.
  unfold write_chunks.
  assert (H : snd (encoded_prefix chunks) = true ->
              fst (encoded_prefix chunks) = List.concat chunks).
  { induction chunks as [|ch rest IH]; simpl; [reflexivity|].
    destruct (utf8 ch); simpl; [|discriminate]. intros Hr. rewrite (IH Hr). reflexivity. }
  destruct (fs w !! path) as [[| |]|]; try discriminate;
    destruct (snd (encoded_prefix chunks)); try discriminate;
    intros [= <-]; rewrite H; reflexivity.
Qed.

Lemma genereet_parskatu_inv (E : Env) (dati : value) (fails : pystr) (w w' : world) :
  genereet_parskatu E dati fails w = Return tt w' ->
  exists report, w' = w_write fails report (w_tick w).
Proof.
  unfold genereet_parskatu, bind, datetime_now, get.
  destruct dati; try discriminate. unfold ret, iterate.
  destruct (py_iter _); [|discriminate].
  destruct (py_iter _); [|discriminate].
  intros H. apply write_file_inv in H. eexists. exact H.
Qed.

(** A turn for a candidate with text that ended normally wrote the prompt
    and the two reports. *)
Lemma main_cv_returned (E : Env) (jd cv c : pystr) (w w' : world) :
  fs w !! cv_cels cv = Some (File c) ->
  strip c <> [] ->
  main_cv E jd cv w = Return tt w' ->
  exists rezultats report,
    written w'
    = written w ++ [(lit "prompt.md", strip (prompt_text jd (loaded c)));
                    (json_fails cv, json_dumps E rezultats);
                    (md_fails cv, report)]
    /\ fs w'
       = <[md_fails cv := File report]>
           (<[json_fails cv := File (json_dumps E rezultats)]>
              (<[lit "prompt.md" := File (strip (prompt_text jd (loaded c)))]> (fs w))).
Proof.
  intros Hf Hs. rewrite (main_cv_text E jd cv c w Hf Hs). unfold bind at 1.
  unfold izveidot_promptu. unfold bind at 1.
  destruct (write_file (lit "prompt.md") _ _) as [[] wp|e wp] eqn:Hp; [|discriminate].
  apply write_file_inv in Hp. subst wp. unfold ret at 1.
  pose proof (izsaukt_modeli_world E (strip (prompt_text jd (loaded c)))
                (w_prompted cv (strip (prompt_text jd (loaded c))) w)) as Hw.
  fold (w_prompted cv (strip (prompt_text jd (loaded c))) w). unfold bind at 1.
  destruct (izsaukt_modeli E _ _) as [rez w2|e w2]; [|discriminate].
  simpl in Hw. destruct Hw as [Hfs [Hwr _]].
  unfold bind at 1. unfold saglabat_json.
  destruct (write_chunks (json_fails cv) _ w2) as [[] wj|e wj] eqn:Hj; [|discriminate].
  apply write_chunks_inv in Hj. subst wj. unfold bind at 1.
  destruct (genereet_parskatu E rez (md_fails cv) _) as [[] w3|e w3] eqn:Hg;
    [|discriminate].
  apply genereet_parskatu_inv in Hg. destruct Hg as [report ->].
  unfold print. intros [= <-]. exists rez, report. split.
  - simpl. rewrite Hwr. simpl. rewrite <- !app_assoc. reflexivity.
  - simpl. rewrite Hfs. reflexivity.
Qed.

(** C8, as the code has it.  For texts that can be encoded as UTF-8 and a
    candidate text with no white space at its end (any text [nolasit_failu]
    returns is such), [izveidot_promptu] returns one string in which both
    texts occur as they are, and writes that very string to prompt.md,
    replacing what was there.  After a run over several candidates the file
    holds the prompt of the last candidate that had text. *)
Theorem izveidot_promptu_contract (E : Env) (jd cv : pystr) (w : world)
        (pre post : list pystr) (last c : pystr) (wrun w' : world) :
  rstrip cv = cv ->
  utf8 jd = true ->
  utf8 cv = true ->
  writable w (lit "prompt.md") = true ->
  fs wrun !! cv_cels last = Some (File c) ->
  strip c <> [] ->
  (forall x, In x post ->
             exists cx, fs wrun !! cv_cels x = Some (File cx) /\ strip cx = []) ->
  for_each (pre ++ last :: post) (main_cv E jd) wrun = Return tt w' ->
  (exists prompts,
      izveidot_promptu jd cv w = Return prompts (w_write (lit "prompt.md") prompts w)
      /\ substring jd prompts
      /\ substring cv prompts
      /\ fs (w_write (lit "prompt.md") prompts w) !! lit "prompt.md"
         = Some (File prompts))
  /\ fs w' !! lit "prompt.md" = Some (File (strip (prompt_text jd (loaded c)))).
Proof.
  intros Hcv Hjdu Hcvu Hw Hlast Hs Hpost Hrun. split.
  - exists (strip (prompt_text jd cv)).
    split; [apply izveidot_promptu_eq; assumption|].
    split; [apply prompt_contains_jd|]. split; [apply prompt_contains_cv, Hcv|].
    apply lookup_insert_eq.
  - rewrite for_each_app in Hrun. unfold bind in Hrun.
    pose proof (keeps_loop E jd pre wrun) as Hk1.
    destruct (for_each pre (main_cv E jd) wrun) as [[] w1|e w1]; [|discriminate].
    simpl in Hk1. cbn [for_each] in Hrun. unfold bind in Hrun.
    assert (Hlast1 : fs w1 !! cv_cels last = Some (File c)).
    { rewrite (Hk1 _ (cv_cels_is_input last)). exact Hlast. }
    pose proof (keeps_main_cv E jd last w1) as Hk2.
    destruct (main_cv E jd last w1) as [[] w2|e w2] eqn:Hturn; [|discriminate].
    destruct (main_cv_returned E jd last c w1 w2 Hlast1 Hs Hturn) as [rez [rep [_ Hfs2]]].
    simpl in Hk2.
    destruct (for_each_all_skipped E jd post w2) as [w3 [Hrun3 Hfs3]].
    { intros x Hx. destruct (Hpost x Hx) as [cx [Hcx Hsx]]. exists cx. split; [|exact Hsx].
      rewrite (Hk2 _ (cv_cels_is_input x)), (Hk1 _ (cv_cels_is_input x)). exact Hcx. }
    rewrite Hrun3 in Hrun. injection Hrun as <-. rewrite Hfs3, Hfs2.
    rewrite lookup_insert_ne by apply md_fails_not_prompt.
    rewrite lookup_insert_ne by apply json_fails_not_prompt.
    apply lookup_insert_eq.
Qed.

Lemma izveidot_promptu_contract_witness :
  (exists prompts,
      izveidot_promptu (lit "JD") (lit "3 years Go") alice_world
      = Return prompts (w_write (lit "prompt.md") prompts alice_world)
      /\ substring (lit "JD") prompts
      /\ substring (lit "3 years Go") prompts
      /\ fs (w_write (lit "prompt.md") prompts alice_world) !! lit "prompt.md"
         = Some (File prompts))
  /\ fs (out_world
           (for_each ([lit "cv_alice.txt"; lit "cv_empty.txt"] ++ lit "cv_bob.txt"
                      :: [lit "cv_blank.txt"])
              (main_cv alice_env (lit "JD")) mixed_world))
       !! lit "prompt.md"
     = Some (File (strip (prompt_text (lit "JD") (loaded (lit "10 years Go"))))).
Proof.
  apply (izveidot_promptu_contract alice_env (lit "JD") (lit "3 years Go") alice_world
           [lit "cv_alice.txt"; lit "cv_empty.txt"] [lit "cv_blank.txt"]
           (lit "cv_bob.txt") (lit "10 years Go") mixed_world).
  - reflexivity.
  - vm_compute. reflexivity.
  - vm_compute. reflexivity.
  - vm_compute. reflexivity.
  - vm_compute. reflexivity.
  - vm_compute. discriminate.
  - intros x [<- | []]. exists blank. split; vm_compute; reflexivity.
  - vm_compute. reflexivity.
Defined.

(** C8, as stated, fails: the returned prompt is stripped, so a candidate
    text that ends in white space does not occur in it as it is. *)
Lemma trailing_space_not_in_prompt :
  exists prompts w',
    izveidot_promptu (lit "a") (lit "zzz ") alice_world = Return prompts w'
    /\ ~ substring (lit "zzz ") prompts.
Proof.
  eexists _, _. split; [vm_compute; reflexivity|].
  intros H. apply contains_spec in H. vm_compute in H. discriminate.
Qed.

(** Nor does it return at all for a text that cannot be encoded: the
    prompt file is left empty and [UnicodeEncodeError] is raised. *)
Example lone_surrogate_no_prompt :
  exists w',
    izveidot_promptu (lit "a") [0xD800] alice_world = Raise encode_error w'
    /\ fs w' !! lit "prompt.md" = Some (File []).
Proof. eexists. split; vm_compute; reflexivity. Qed.

(** ** Names of the reports *)

(** [s.split(".")[0]] of a name with a dot: what stands before the first
    dot. *)
Lemma before_first_dot_app (base tail : pystr) :
  ~ In 46 base -> before_first_dot (base ++ lit "." ++ tail) = base.
Proof.
  induction base as [|c base IH]; intros H.
  - vm_compute. reflexivity.
  - cbn [app before_first_dot]. destruct (c =? 46) eqn:Hc.
    + apply N.eqb_eq in Hc. subst c. exfalso. apply H. left. reflexivity.
    + f_equal. apply IH. intros Hin. apply H. right. exact Hin.
Qed.

(** C10.  The base name of the outputs is the file name up to its first
    dot: a name made of [base], which has no dot, a dot and any [tail] gets
    the files outputs/base.json and outputs/base_report.md, so that
    cv.v2.final.txt gives outputs/cv.json and outputs/cv_report.md.  Two
    candidates whose names have the same [base] have the same two output
    paths, and when the turn of the second follows that of the first the
    two files hold what the second turn wrote. *)
Theorem output_name_stops_at_first_dot (E : Env) (jd base tail1 tail2 c1 c2 : pystr)
        (w0 w1 w2 : world) :
  ~ In 46 base ->
  fs w0 !! cv_cels (base ++ lit "." ++ tail1) = Some (File c1) -> strip c1 <> [] ->
  main_cv E jd (base ++ lit "." ++ tail1) w0 = Return tt w1 ->
  fs w1 !! cv_cels (base ++ lit "." ++ tail2) = Some (File c2) -> strip c2 <> [] ->
  main_cv E jd (base ++ lit "." ++ tail2) w1 = Return tt w2 ->
  (json_fails (lit "cv.v2.final.txt") = lit "outputs/cv.json"
   /\ md_fails (lit "cv.v2.final.txt") = lit "outputs/cv_report.md")
  /\ json_fails (base ++ lit "." ++ tail1) = lit "outputs/" ++ base ++ lit ".json"
  /\ md_fails (base ++ lit "." ++ tail1) = lit "outputs/" ++ base ++ lit "_report.md"
  /\ json_fails (base ++ lit "." ++ tail2) = lit "outputs/" ++ base ++ lit ".json"
  /\ md_fails (base ++ lit "." ++ tail2) = lit "outputs/" ++ base ++ lit "_report.md"
  /\ exists p1 j1 r1 p2 j2 r2,
      written w1
      = written w0 ++ [(lit "prompt.md", p1);
                       (lit "outputs/" ++ base ++ lit ".json", j1);
                       (lit "outputs/" ++ base ++ lit "_report.md", r1)]
      /\ written w2
         = written w1 ++ [(lit "prompt.md", p2);
                          (lit "outputs/" ++ base ++ lit ".json", j2);
                          (lit "outputs/" ++ base ++ lit "_report.md", r2)]
      /\ fs w2 !! (lit "outputs/" ++ base ++ lit ".json") = Some (File j2)
      /\ fs w2 !! (lit "outputs/" ++ base ++ lit "_report.md") = Some (File r2).
Proof.
  intros Hbase Hf1 Hs1 Hrun1 Hf2 Hs2 Hrun2.
  assert (Hj : forall tail, json_fails (base ++ lit "." ++ tail)
                            = lit "outputs/" ++ base ++ lit ".json").
  { intros tail. unfold json_fails. rewrite before_first_dot_app by exact Hbase.
    reflexivity. }
  assert (Hm : forall tail, md_fails (base ++ lit "." ++ tail)
                            = lit "outputs/" ++ base ++ lit "_report.md").
  { intros tail. unfold md_fails. rewrite before_first_dot_app by exact Hbase.
    reflexivity. }
  split; [split; vm_compute; reflexivity|].
  split; [apply Hj|]. split; [apply Hm|]. split; [apply Hj|]. split; [apply Hm|].
  destruct (main_cv_returned E jd _ c1 w0 w1 Hf1 Hs1 Hrun1) as [z1 [r1 [Hw1 _]]].
  destruct (main_cv_returned E jd _ c2 w1 w2 Hf2 Hs2 Hrun2) as [z2 [r2 [Hw2 Hfs2]]].
  pose proof (json_fails_ne_md_fails (base ++ lit "." ++ tail2)) as Hne.
  rewrite Hj, Hm in Hw1. rewrite Hj, Hm in Hw2, Hfs2, Hne.
  eexists _, _, _, _, _, _. split; [exact Hw1|]. split; [exact Hw2|]. split.
  - rewrite Hfs2, lookup_insert_ne by (apply not_eq_sym, Hne).
    apply lookup_insert_eq.
  - rewrite Hfs2. apply lookup_insert_eq.
Qed.

Lemma output_name_stops_at_first_dot_witness :
  (json_fails (lit "cv.v2.final.txt") = lit "outputs/cv.json"
   /\ md_fails (lit "cv.v2.final.txt") = lit "outputs/cv_report.md")
  /\ json_fails (lit "cv" ++ lit "." ++ lit "old.txt") = lit "outputs/" ++ lit "cv" ++ lit ".json"
  /\ md_fails (lit "cv" ++ lit "." ++ lit "old.txt")
     = lit "outputs/" ++ lit "cv" ++ lit "_report.md"
  /\ json_fails (lit "cv" ++ lit "." ++ lit "new.txt") = lit "outputs/" ++ lit "cv" ++ lit ".json"
  /\ md_fails (lit "cv" ++ lit "." ++ lit "new.txt")
     = lit "outputs/" ++ lit "cv" ++ lit "_report.md"
  /\ exists p1 j1 r1 p2 j2 r2,
      written (out_world (main_cv alice_env (lit "JD") (lit "cv.old.txt") versions_world))
      = written versions_world
        ++ [(lit "prompt.md", p1);
            (lit "outputs/" ++ lit "cv" ++ lit ".json", j1);
            (lit "outputs/" ++ lit "cv" ++ lit "_report.md", r1)]
      /\ written
           (out_world
              (main_cv alice_env (lit "JD") (lit "cv.new.txt")
                 (out_world
                    (main_cv alice_env (lit "JD") (lit "cv.old.txt") versions_world))))
         = written (out_world (main_cv alice_env (lit "JD") (lit "cv.old.txt") versions_world))
           ++ [(lit "prompt.md", p2);
               (lit "outputs/" ++ lit "cv" ++ lit ".json", j2);
               (lit "outputs/" ++ lit "cv" ++ lit "_report.md", r2)]
      /\ fs (out_world
               (main_cv alice_env (lit "JD") (lit "cv.new.txt")
                  (out_world
                     (main_cv alice_env (lit "JD") (lit "cv.old.txt") versions_world))))
           !! (lit "outputs/" ++ lit "cv" ++ lit ".json") = Some (File j2)
      /\ fs (out_world
               (main_cv alice_env (lit "JD") (lit "cv.new.txt")
                  (out_world
                     (main_cv alice_env (lit "JD") (lit "cv.old.txt") versions_world))))
           !! (lit "outputs/" ++ lit "cv" ++ lit "_report.md") = Some (File r2).
Proof.
  apply (output_name_stops_at_first_dot alice_env (lit "JD") (lit "cv") (lit "old.txt")
           (lit "new.txt") (lit "old text") (lit "new text") versions_world).
  - vm_compute. intros H. repeat (destruct H as [H|H]; [discriminate|]). exact H.
  - vm_compute. reflexivity.
  - vm_compute. discriminate.
  - vm_compute. reflexivity.
  - vm_compute. reflexivity.
  - vm_compute. discriminate.
  - vm_compute. reflexivity.
Defined.

(** ** The scenario of the specification *)

Lemma split_lines_nonempty (s : pystr) : split_lines s <> [].
Proof.
  induction s as [|c s IH]; simpl; [discriminate|].
  destruct (split_lines s); [discriminate|]. destruct (c =? 10); discriminate.
Qed.

(** [(a + NL + b).split(NL)] is [a.split(NL) + b.split(NL)]. *)
Lemma split_lines_app_nl (a b : pystr) :
  split_lines (a ++ NL ++ b) = split_lines a ++ split_lines b.
Proof.
  induction a as [|c a IH].
  - simpl. destruct (split_lines b) eqn:Hb; [|reflexivity].
    exfalso. eapply split_lines_nonempty. exact Hb.
  - change ((c :: a) ++ NL ++ b) with (c :: (a ++ NL ++ b)). cbn [split_lines].
    rewrite IH. destruct (split_lines a) as [|x xs] eqn:Ha.
    + exfalso. eapply split_lines_nonempty. exact Ha.
    + simpl. destruct (c =? 10); reflexivity.
Qed.

(** A line of what follows a newline is a line of the whole. *)
Lemma in_split_lines_after (l a b : pystr) :
  In l (split_lines b) -> In l (split_lines (a ++ NL ++ b)).
Proof. intros H. rewrite split_lines_app_nl. apply in_or_app. right. exact H. Qed.

Lemma has_line_spec (l text : pystr) : has_line l text = true <-> In l (split_lines text).
Proof.
  unfold has_line. rewrite existsb_exists. split.
  - intros [x [Hx Heq]]. apply str_eqb_spec in Heq. subst x. exact Hx.
  - intros H. exists l. split; [exact H | apply str_eqb_refl].
Qed.

Lemma alice_obj_renderable (k : pystr) :
  k = lit "strengths" \/ k = lit "missing_requirements" ->
  match alice_obj with VDict d => present_iterable d k | _ => False end.
Proof.
  intros [-> | ->] v H; vm_compute in H; injection H as <-; discriminate.
Qed.

Lemma utf8_alice_report (E : Env) (datums : pystr) :
  utf8 datums = true ->
  match alice_obj with
  | VDict d => utf8 (report_text E datums d) = true
  | _ => False
  end.
Proof.
  intros H. cbn [alice_obj]. unfold report_text, parskats_stripped.
  repeat (apply utf8_app_true; [first [exact H | vm_compute; reflexivity]|]).
  vm_compute. reflexivity.
Qed.

(** C6, as the code has it.  In a run with the one candidate cv_alice.txt,
    when the service answers with a text that parses to the object of the
    scenario, outputs/cv_alice.json holds the dump of exactly that object,
    and outputs/cv_alice_report.md has the line of the score, which reads
    [**Atbilstības punktu skaits:** 72] with the label in bold, and the line
    of the verdict, [**possible match**].  The two input files are text
    files, the three files written can be opened, and the dump of the
    object and the time stamp are texts that can be encoded. *)
Theorem alice_scenario (E : Env) (w : world) (jdc c : pystr) (r : response)
        (t : pystr) (rest : list (option pystr)) :
  fs w !! lit "sample_inputs/jd.txt" = Some (File jdc) ->
  strip jdc <> [] ->
  utf8 jdc = true ->
  glob_cv (listing w) = [lit "cv_alice.txt"] ->
  fs w !! lit "sample_inputs/cv_alice.txt" = Some (File c) ->
  strip c <> [] ->
  utf8 c = true ->
  outputs_writable w (lit "cv_alice.txt") = true ->
  OpenAI_new E = None ->
  completions_create E (calls w)
    (model_request (strip (prompt_text (loaded jdc) (loaded c)))) = inl r ->
  choices r = Some t :: rest ->
  json_loads E t = inl alice_obj ->
  utf8 (json_dumps E alice_obj) = true ->
  utf8 (strftime_now E (clock w)) = true ->
  exists w' report,
    main E w = Return tt w'
    /\ fs w' !! lit "outputs/cv_alice.json" = Some (File (json_dumps E alice_obj))
    /\ fs w' !! lit "outputs/cv_alice_report.md" = Some (File report)
    /\ In (lit "**Atbilstības punktu skaits:** 72") (split_lines report)
    /\ In (lit "**possible match**") (split_lines report).
Proof.
  intros Hjd Hjs Hju Hglob Hcv Hcs Hcu Hout Hc Hsvc Hr Hj Hdu Htu.
  set (w0 := w_print msg_start w).
  set (p := strip (prompt_text (loaded jdc) (loaded c))) in *.
  assert (Hcall : izsaukt_modeli E p (w_prompted (lit "cv_alice.txt") p w0)
                  = Return alice_obj (w_call (w_prompted (lit "cv_alice.txt") p w0))).
  { apply (izsaukt_modeli_parsed E r t rest); assumption. }
  destruct (main_cv_rendered E (loaded jdc) (lit "cv_alice.txt") c w0 _ _ Hcv Hcs
              (utf8_loaded jdc Hju) Hcu Hout Hcall
              (alice_obj_renderable _ (or_introl eq_refl))
              (alice_obj_renderable _ (or_intror eq_refl)) Hdu
              (utf8_alice_report E _ Htu))
    as [w1 [Hrun [_ [Hfs _]]]].
  eexists _, _. split.
  - rewrite (main_with_jd E jdc w Hjd Hjs), Hglob. cbn [for_each]. unfold bind.
    fold w0. rewrite Hrun. reflexivity.
  - simpl. rewrite Hfs.
    change (lit "outputs/cv_alice.json") with (json_fails (lit "cv_alice.txt")).
    change (lit "outputs/cv_alice_report.md") with (md_fails (lit "cv_alice.txt")).
    split.
    { rewrite lookup_insert_ne by (apply not_eq_sym, json_fails_ne_md_fails).
      apply lookup_insert_eq. }
    split; [apply lookup_insert_eq|].
    unfold report_text, parskats_stripped.
    split.
    + apply in_split_lines_after. apply (in_split_lines_after _ []).
      rewrite (app_assoc (lit "**Datums:** ")). apply in_split_lines_after.
      vm_compute. left. reflexivity.
    + apply in_split_lines_after. apply (in_split_lines_after _ []).
      rewrite (app_assoc (lit "**Datums:** ")). apply in_split_lines_after.
      vm_compute. repeat first [left; reflexivity | right].
Qed.

Lemma alice_scenario_witness :
  exists w' report,
    main alice_env alice_world = Return tt w'
    /\ fs w' !! lit "outputs/cv_alice.json" = Some (File (json_dumps alice_env alice_obj))
    /\ fs w' !! lit "outputs/cv_alice_report.md" = Some (File report)
    /\ In (lit "**Atbilstības punktu skaits:** 72") (split_lines report)
    /\ In (lit "**possible match**") (split_lines report).
Proof.
  apply (alice_scenario alice_env alice_world
           (lit "Senior backend engineer, 5 years Go") (lit "3 years Go, led a team")
           (Response [Some alice_text]) alice_text []).
  - vm_compute. reflexivity.
  - vm_compute. discriminate.
  - vm_compute. reflexivity.
  - vm_compute. reflexivity.
  - vm_compute. reflexivity.
  - vm_compute. discriminate.
  - vm_compute. reflexivity.
  - vm_compute. reflexivity.
  - reflexivity.
  - reflexivity.
  - reflexivity.
  - vm_compute. reflexivity.
  - vm_compute. reflexivity.
  - vm_compute. reflexivity.
Defined.

(** C6, as stated, fails: in the scenario no line of the report reads
    [Atbilstības punktu skaits: 72], and that text does not occur in the
    report at all, the bold marks standing between the label and the score. *)
Lemma alice_report_score_line :
  exists w' report,
    main alice_env alice_world = Return tt w'
    /\ fs w' !! lit "outputs/cv_alice_report.md" = Some (File report)
    /\ ~ In (lit "Atbilstības punktu skaits: 72") (split_lines report)
    /\ ~ substring (lit "Atbilstības punktu skaits: 72") report.
Proof.
  eexists _, _. split; [vm_compute; reflexivity|].
  split; [vm_compute; reflexivity|]. split.
  - intros H. apply has_line_spec in H. vm_compute in H. discriminate.
  - intros H. apply contains_spec in H. vm_compute in H. discriminate.
Qed.

(** * Further properties of the code *)

(** ** The completion client, once the client is built *)

(** X1.  With the client built, [izsaukt_modeli] returns a value whatever
    the service and the parser do: it has called
    [client.chat.completions.create] exactly once (how many requests the
    client sends for that call is the client's matter), written no file and
    not read the clock, and the value is what the parser gave for the text
    of the answer, or the record of an unparsable text, or the record of a
    failure. *)
Theorem izsaukt_modeli_contained (E : Env) (prompt : pystr) (w : world) :
  OpenAI_new E = None ->
  exists v w',
    izsaukt_modeli E prompt w = Return v w'
    /\ calls w' = S (calls w)
    /\ fs w' = fs w
    /\ written w' = written w
    /\ clock w' = clock w
    /\ ((exists t, json_loads E t = inl v)
        \/ (exists t, v = invalid_json_record (VStr t))
        \/ (exists e, v = failure_record e)).
Proof.
  intros Hc.
  unfold izsaukt_modeli, bind, new_client, try_except, chat_completions_create,
    is_Exception.
  rewrite Hc. unfold ret at 1.
  destruct (completions_create E (calls w) (model_request prompt)) as [r|e].
  2: { eexists _, _. split; [reflexivity|]. repeat split. right. right. by exists e. }
  unfold first_choice_content.
  destruct (choices r) as [|[t|] rest].
  - eexists _, _. split; [reflexivity|]. repeat split. right. right. by eexists.
  - unfold ret at 1. unfold loads.
    destruct (json_loads E t) as [v|e] eqn:Hj.
    + eexists _, _. split; [reflexivity|]. repeat split. left. by exists t.
    + unfold raise. destruct (is_class JSONDecodeError e).
      * eexists _, _. split; [reflexivity|]. repeat split. right. left. by exists t.
      * eexists _, _. split; [reflexivity|]. repeat split. right. right. by exists e.
  - eexists _, _. split; [reflexivity|]. repeat split. right. right. by eexists.
Qed.

Lemma izsaukt_modeli_contained_witness :
  exists v w',
    izsaukt_modeli down_env (lit "prompt") alice_world = Return v w'
    /\ calls w' = S (calls alice_world)
    /\ fs w' = fs alice_world
    /\ written w' = written alice_world
    /\ clock w' = clock alice_world
    /\ ((exists t, json_loads down_env t = inl v)
        \/ (exists t, v = invalid_json_record (VStr t))
        \/ (exists e, v = failure_record e)).
Proof. apply (izsaukt_modeli_contained down_env (lit "prompt") alice_world). reflexivity. Defined.

(** X2.  When the answer has no choice at all, or its first message has no
    text, the failure stays inside [izsaukt_modeli]: it returns the failure
    record of an [IndexError], respectively a [TypeError], after printing
    the error line. *)
Theorem answer_without_text_contained (E : Env) (r : response) (prompt : pystr)
        (w : world) :
  OpenAI_new E = None ->
  completions_create E (calls w) (model_request prompt) = inl r ->
  choices r = [] \/ (exists rest, choices r = None :: rest) ->
  exists e,
    izsaukt_modeli E prompt w
    = Return (failure_record e) (w_print (msg_model_error e) (w_call w))
    /\ (choices r = [] -> exn_cls e = IndexError)
    /\ (choices r <> [] -> exn_cls e = TypeError).
Proof.
  intros Hc Hs Hr.
  unfold izsaukt_modeli, bind, new_client, try_except, chat_completions_create,
    first_choice_content, is_Exception.
  rewrite Hc. unfold ret at 1. rewrite Hs.
  destruct Hr as [Hr | [rest Hr]]; rewrite Hr.
  - eexists. split; [reflexivity|]. split; [reflexivity | intros H; by destruct H].
  - eexists. split; [reflexivity|]. split; [discriminate | reflexivity].
Qed.

Lemma answer_without_text_contained_witness :
  exists e,
    izsaukt_modeli silent_env (lit "prompt") alice_world
    = Return (failure_record e) (w_print (msg_model_error e) (w_call alice_world))
    /\ (choices (Response [None]) = [] -> exn_cls e = IndexError)
    /\ (choices (Response [None]) <> [] -> exn_cls e = TypeError).
Proof.
  apply (answer_without_text_contained silent_env (Response [None]) (lit "prompt")
           alice_world).
  - reflexivity.
  - reflexivity.
  - right. exists []. reflexivity.
Defined.

(** X3.  The raw text of the answer is kept only for [JSONDecodeError]:
    when [json.loads] raises an exception of another class, the outer
    handler takes it and the record returned holds the message of the
    exception and no [raw_response]. *)
Theorem other_parser_error_drops_raw_text (E : Env) (r : response) (t : pystr)
        (rest : list (option pystr)) (e : exn) (prompt : pystr) (w : world) :
  OpenAI_new E = None ->
  completions_create E (calls w) (model_request prompt) = inl r ->
  choices r = Some t :: rest ->
  json_loads E t = inr e ->
  exn_cls e <> JSONDecodeError ->
  exists d,
    izsaukt_modeli E prompt w
    = Return (VDict d) (w_print (msg_model_error e) (w_call w))
    /\ dict_lookup (lit "error") d = Some (VStr (exn_msg e))
    /\ dict_lookup (lit "raw_response") d = None.
Proof.
  intros Hc Hs Hr Hj He.
  exists [(lit "error", VStr (exn_msg e))]. split.
  - unfold izsaukt_modeli, bind, new_client, try_except, chat_completions_create,
      first_choice_content, loads, is_Exception.
    rewrite Hc. unfold ret at 1. rewrite Hs, Hr. unfold ret at 1. rewrite Hj.
    unfold raise, is_class. destruct (exn_cls e); try reflexivity. contradiction.
  - split; vm_compute; reflexivity.
Qed.

Lemma other_parser_error_drops_raw_text_witness :
  exists d,
    izsaukt_modeli deep_env (lit "prompt") alice_world
    = Return (VDict d) (w_print (msg_model_error recursion_error) (w_call alice_world))
    /\ dict_lookup (lit "error") d = Some (VStr (exn_msg recursion_error))
    /\ dict_lookup (lit "raw_response") d = None.
Proof.
  apply (other_parser_error_drops_raw_text deep_env (Response [Some deep_text])
           deep_text [] recursion_error (lit "prompt") alice_world).
  - reflexivity.
  - reflexivity.
  - reflexivity.
  - reflexivity.
  - discriminate.
Defined.

(** ** Failures of the service, seen from the loop *)

(** X4.  A failure of the service costs the candidate its evaluation, not
    its reports, and costs the later candidates nothing: when the texts can
    be encoded and the files opened, the turn, after its one call of the
    client, prints the error, writes the failure record to the JSON file
    and a report of placeholders, ends normally, and the loop goes on from
    there. *)
Theorem service_failure_still_reported (E : Env) (jd cv c : pystr) (w : world)
        (e : exn) (post : list pystr) :
  fs w !! cv_cels cv = Some (File c) ->
  strip c <> [] ->
  utf8 jd = true ->
  utf8 c = true ->
  outputs_writable w cv = true ->
  OpenAI_new E = None ->
  completions_create E (calls w) (model_request (strip (prompt_text jd (loaded c))))
  = inr e ->
  utf8 (json_dumps E (failure_record e)) = true ->
  utf8 (strftime_now E (clock w)) = true ->
  exists w',
    main_cv E jd cv w = Return tt w'
    /\ fs w' !! json_fails cv = Some (File (json_dumps E (failure_record e)))
    /\ fs w' !! md_fails cv = Some (File (placeholder_report (strftime_now E (clock w))))
    /\ console w'
       = console w
         ++ [msg_eval cv; msg_model_error e;
             lit "✅ Sagatavots: " ++ json_fails cv ++ lit " un " ++ md_fails cv ++ NL]
    /\ calls w' = S (calls w)
    /\ for_each (cv :: post) (main_cv E jd) w = for_each post (main_cv E jd) w'.
Proof.
  intros Hf Hs Hjd Hcu Hout Hc Hsvc Hju Hdu.
  set (p := strip (prompt_text jd (loaded c))) in *.
  pose proof (izsaukt_modeli_service_error E e p (w_prompted cv p w) Hc Hsvc) as Hcall.
  assert (Hrep : forall datums,
             report_text E datums [(lit "error", VStr (exn_msg e))]
             = placeholder_report datums) by (intros datums; reflexivity).
  destruct (main_cv_rendered E jd cv c w _ _ Hf Hs Hjd Hcu Hout Hcall
              (failure_record_renderable _ _ (or_introl eq_refl))
              (failure_record_renderable _ _ (or_intror eq_refl)) Hju)
    as [w' [Hrun [_ [Hfs [Hcalls Hcon]]]]].
  { rewrite Hrep. apply utf8_placeholder_report, Hdu. }
  rewrite Hrep in Hfs.
  exists w'. split; [exact Hrun|]. split; [|split; [|split; [|split]]].
  - rewrite Hfs, lookup_insert_ne by (apply not_eq_sym, json_fails_ne_md_fails).
    apply lookup_insert_eq.
  - rewrite Hfs. apply lookup_insert_eq.
  - rewrite Hcon. simpl. rewrite <- !app_assoc. reflexivity.
  - rewrite Hcalls. reflexivity.
  - cbn [for_each]. unfold bind. rewrite Hrun. reflexivity.
Qed.

Lemma service_failure_still_reported_witness :
  exists w',
    main_cv down_env (lit "JD") (lit "cv_alice.txt") mixed_world = Return tt w'
    /\ fs w' !! json_fails (lit "cv_alice.txt")
       = Some (File (json_dumps down_env (failure_record down_error)))
    /\ fs w' !! md_fails (lit "cv_alice.txt")
       = Some (File (placeholder_report (strftime_now down_env (clock mixed_world))))
    /\ console w'
       = console mixed_world
         ++ [msg_eval (lit "cv_alice.txt"); msg_model_error down_error;
             lit "✅ Sagatavots: " ++ json_fails (lit "cv_alice.txt") ++ lit " un "
             ++ md_fails (lit "cv_alice.txt") ++ NL]
    /\ calls w' = S (calls mixed_world)
    /\ for_each (lit "cv_alice.txt" :: [lit "cv_bob.txt"]) (main_cv down_env (lit "JD"))
         mixed_world
       = for_each [lit "cv_bob.txt"] (main_cv down_env (lit "JD")) w'.
Proof.
  apply (service_failure_still_reported down_env (lit "JD") (lit "cv_alice.txt")
           (lit "3 years Go, led a team") mixed_world down_error [lit "cv_bob.txt"]).
  - vm_compute. reflexivity.
  - vm_compute. discriminate.
  - vm_compute. reflexivity.
  - vm_compute. reflexivity.
  - vm_compute. reflexivity.
  - reflexivity.
  - reflexivity.
  - vm_compute. reflexivity.
  - vm_compute. reflexivity.
Defined.

(** ** The ways the renderer ends *)

(** X5.  [genereet_parskatu] ends in one of three ways.  It returns, having
    written a text that can be encoded to the one file it was given.  Or it
    raises before anything is written, the files being as they were:
    [AttributeError] (the value is not a dict), [TypeError] (a list field
    cannot be iterated), or what opening the file raises.  Or the text of
    the report cannot be encoded: [UnicodeEncodeError] is raised after the
    file was opened, and the file is left empty, a report left at that path
    by an earlier run being lost. *)
Theorem genereet_parskatu_outcomes (E : Env) (dati : value) (fails : pystr)
        (w : world) :
  (exists report,
      genereet_parskatu E dati fails w = Return tt (w_write fails report (w_tick w))
      /\ utf8 report = true)
  \/ (exists e w',
         genereet_parskatu E dati fails w = Raise e w'
         /\ (exn_cls e = AttributeError \/ exn_cls e = TypeError
             \/ fs w !! fails = Some (Unopenable e))
         /\ fs w' = fs w
         /\ written w' = written w)
  \/ (exists w',
         genereet_parskatu E dati fails w = Raise encode_error w'
         /\ fs w' = <[fails := File []]> (fs w)
         /\ written w' = written w ++ [(fails, [])]).
Proof.
  unfold genereet_parskatu, bind, datetime_now, get.
  destruct dati;
    try (right; left; eexists _, _; split; [reflexivity|];
         split; [left; reflexivity | split; reflexivity]).
  unfold ret, iterate.
  destruct (py_iter (dict_get d (lit "strengths") (VList []))).
  2: { right. left. eexists _, _. split; [reflexivity|].
       split; [right; left; reflexivity | split; reflexivity]. }
  destruct (py_iter (dict_get d (lit "missing_requirements") (VList []))).
  2: { right. left. eexists _, _. split; [reflexivity|].
       split; [right; left; reflexivity | split; reflexivity]. }
  unfold ret, write_file. cbn [fs w_tick].
  destruct (fs w !! fails) as [[c| |e]|] eqn:Hf.
  3: { right. left. eexists _, _. split; [reflexivity|].
       split; [right; right; reflexivity | split; reflexivity]. }
  all: match goal with |- context [utf8 ?t] => destruct (utf8 t) eqn:Hu end.
  all: first [ left; eexists; split; [reflexivity | exact Hu]
             | right; right; eexists; split; [reflexivity | split; reflexivity] ].
Qed.

(** ** Names of the output files *)

Lemma before_first_dot_no_dot (s : pystr) : ~ In 46 (before_first_dot s).
Proof.
  induction s as [|c s IH]; simpl; [tauto|].
  destruct (c =? 46) eqn:Hc; simpl; [tauto|].
  intros [H | H]; [|exact (IH H)]. subst c. discriminate.
Qed.

Lemma before_first_dot_spec (s : pystr) :
  (~ In 46 s /\ before_first_dot s = s)
  \/ (exists tail, s = before_first_dot s ++ 46 :: tail).
Proof.
  induction s as [|c s IH]; simpl.
  - left. split; [tauto | reflexivity].
  - destruct (c =? 46) eqn:Hc.
    + right. apply N.eqb_eq in Hc. subst c. exists s. reflexivity.
    + apply N.eqb_neq in Hc. destruct IH as [[Hn Heq] | [tail Ht]].
      * left. split; [|congruence]. intros [H | H]; [congruence | exact (Hn H)].
      * right. exists tail. simpl. congruence.
Qed.

Lemma suffix_differs (a b x y : pystr) (c d : N) :
  c <> d -> a ++ x ++ [c] <> b ++ y ++ [d].
Proof.
  intros Hcd H. rewrite !app_assoc in H. apply app_inj_tail in H.
  destruct H as [_ H]. contradiction.
Qed.

(** X6.  Two candidates share an output path exactly when their names
    agree up to the first dot.  Apart from that no two paths of the program
    ever coincide: a JSON file is never the report of any candidate, and
    neither is the prompt file or a file of the input directory. *)
Theorem output_paths_collide_only_by_base_name (cv1 cv2 : pystr) :
  (json_fails cv1 = json_fails cv2 <-> before_first_dot cv1 = before_first_dot cv2)
  /\ (md_fails cv1 = md_fails cv2 <-> before_first_dot cv1 = before_first_dot cv2)
  /\ json_fails cv1 <> md_fails cv2
  /\ json_fails cv1 <> lit "prompt.md"
  /\ md_fails cv1 <> lit "prompt.md"
  /\ json_fails cv1 <> cv_cels cv2
  /\ md_fails cv1 <> cv_cels cv2
  /\ cv_cels cv2 <> lit "prompt.md".
Proof.
  unfold json_fails, md_fails, cv_cels. repeat split.
  - intros H. apply app_inv_head in H. apply app_inv_tail in H. exact H.
  - intros ->. reflexivity.
  - intros H. apply app_inv_head in H. apply app_inv_tail in H. exact H.
  - intros ->. reflexivity.
  - intros H. apply app_inv_head in H.
    change (lit ".json") with (lit ".jso" ++ [110]) in H.
    change (lit "_report.md") with (lit "_report.m" ++ [100]) in H.
    revert H. apply suffix_differs. discriminate.
  - intros H. vm_compute in H. discriminate.
  - intros H. vm_compute in H. discriminate.
  - intros H. vm_compute in H. discriminate.
  - intros H. vm_compute in H. discriminate.
  - intros H. vm_compute in H. discriminate.
Qed.

Lemma endswith_spec (p s : pystr) : endswith p s = true <-> exists t, s = t ++ p.
Proof.
  unfold endswith. rewrite startswith_spec. split.
  - intros [t Ht]. exists (rev t). apply (f_equal (@rev N)) in Ht.
    rewrite rev_involutive, rev_app_distr, rev_involutive in Ht. exact Ht.
  - intros [t ->]. exists (rev t). apply rev_app_distr.
Qed.

(** X7.  Every name the glob lets through is a name of the listing, begins
    with cv and has a dot after its base name, and the base name begins
    with cv and holds no dot: each output path is outputs/cv..., and the
    file of the job description, jd.txt, is never taken for a candidate. *)
Theorem glob_cv_names (names : list pystr) (n : pystr) :
  In n (glob_cv names) ->
  In n names
  /\ n <> lit "jd.txt"
  /\ exists rest tail,
      before_first_dot n = lit "cv" ++ rest
      /\ ~ In 46 rest
      /\ n = lit "cv" ++ rest ++ lit "." ++ tail.
Proof.
  unfold glob_cv. rewrite filter_In, andb_true_iff, startswith_spec, endswith_spec.
  intros [Hin [[t Ht] [u Hu]]]. split; [exact Hin|]. split.
  { intros ->. vm_compute in Ht. discriminate. }
  subst n. exists (before_first_dot t).
  assert (Hdot : In 46 t).
  { assert (H : In 46 (lit "cv" ++ t)).
    { rewrite Hu. apply in_or_app. right. vm_compute. left. reflexivity. }
    apply in_app_or in H. destruct H as [H | H]; [|exact H].
    vm_compute in H. destruct H as [H | [H | []]]; discriminate. }
  destruct (before_first_dot_spec t) as [[Hn _] | [tail Ht]]; [contradiction|].
  exists tail. split; [reflexivity|]. split; [apply before_first_dot_no_dot|].
  change (lit "." ++ tail) with (46 :: tail). rewrite <- Ht. reflexivity.
Qed.

Lemma glob_cv_names_witness :
  In (lit "cv.v2.final.txt") [lit "jd.txt"; lit "cv.v2.final.txt"]
  /\ lit "cv.v2.final.txt" <> lit "jd.txt"
  /\ exists rest tail,
      before_first_dot (lit "cv.v2.final.txt") = lit "cv" ++ rest
      /\ ~ In 46 rest
      /\ lit "cv.v2.final.txt" = lit "cv" ++ rest ++ lit "." ++ tail.
Proof.
  apply (glob_cv_names [lit "jd.txt"; lit "cv.v2.final.txt"] (lit "cv.v2.final.txt")).
  vm_compute. left. reflexivity.
Defined.

(** ** The loader *)

Lemma lstrip_head (s : pystr) :
  lstrip s = [] \/ exists c r, lstrip s = c :: r /\ isspace c = false.
Proof.
  induction s as [|c s IH]; simpl; [left; reflexivity|].
  destruct (isspace c) eqn:Hc; [exact IH|]. right. exists c, s. split; [reflexivity | exact Hc].
Qed.

Lemma rstrip_cons_keep (c : N) (r : pystr) :
  isspace c = false -> exists r', rstrip (c :: r) = c :: r'.
Proof.
  intros Hc. simpl. destruct (rstrip r) as [|x xs].
  - rewrite Hc. exists []. reflexivity.
  - exists (x :: xs). reflexivity.
Qed.

Lemma strip_idem (s : pystr) : strip (strip s) = strip s.
Proof.
  unfold strip. destruct (lstrip_head s) as [-> | [c [r [-> Hc]]]]; [reflexivity|].
  destruct (rstrip_cons_keep c r Hc) as [r' Hr]. rewrite Hr.
  simpl lstrip. rewrite Hc. rewrite <- Hr. apply rstrip_idem.
Qed.

Lemma strip_loaded (c : pystr) : strip (loaded c) = loaded c.
Proof. unfold loaded. apply strip_idem. Qed.

(** X8.  [nolasit_failu] by what is at the path.  A text file gives its
    text, the line ends as text mode reads them and no white space at
    either end; nothing there gives the empty string after the warning, as
    does an entry whose opening raises [FileNotFoundError].  A file that is
    not UTF-8 and an entry that cannot be opened (a directory, a file
    without permission) make it raise, the handler being for
    [FileNotFoundError] alone.  In no case is a file changed.  The string
    returned for a text file is empty exactly when the file holds nothing
    but white space. *)
Theorem nolasit_failu_by_entry (cels : pystr) (w : world) :
  nolasit_failu cels w
  = match fs w !! cels with
    | Some (File c) => Return (loaded c) w
    | Some Undecodable => Raise decode_error w
    | Some (Unopenable e) =>
      if is_class FileNotFoundError e
      then Return [] (w_print (msg_not_found cels) w)
      else Raise e w
    | None => Return [] (w_print (msg_not_found cels) w)
    end
  /\ fs (out_world (nolasit_failu cels w)) = fs w
  /\ written (out_world (nolasit_failu cels w)) = written w
  /\ calls (out_world (nolasit_failu cels w)) = calls w
  /\ (forall c, strip (loaded c) = loaded c /\ (loaded c = [] <-> all_space c))
  /\ is_class FileNotFoundError decode_error = false
  /\ is_class FileNotFoundError (is_a_directory cels) = false.
Proof.
  assert (H : nolasit_failu cels w
              = match fs w !! cels with
                | Some (File c) => Return (loaded c) w
                | Some Undecodable => Raise decode_error w
                | Some (Unopenable e) =>
                  if is_class FileNotFoundError e
                  then Return [] (w_print (msg_not_found cels) w)
                  else Raise e w
                | None => Return [] (w_print (msg_not_found cels) w)
                end).
  { destruct (fs w !! cels) as [[c| |e]|] eqn:Hf.
    - apply nolasit_failu_present, Hf.
    - apply nolasit_failu_undecodable, Hf.
    - apply nolasit_failu_unopenable, Hf.
    - apply nolasit_failu_absent, Hf. }
  split; [exact H|]. rewrite H.
  split; [|split; [|split; [|split; [|split]]]].
  - destruct (fs w !! cels) as [[c| |e]|]; try reflexivity.
    destruct (is_class FileNotFoundError e); reflexivity.
  - destruct (fs w !! cels) as [[c| |e]|]; try reflexivity.
    destruct (is_class FileNotFoundError e); reflexivity.
  - destruct (fs w !! cels) as [[c| |e]|]; try reflexivity.
    destruct (is_class FileNotFoundError e); reflexivity.
  - intros c. split; [apply strip_loaded|].
    rewrite loaded_empty_iff. apply strip_empty_iff.
  - reflexivity.
  - reflexivity.
Qed.

(** A candidate that is a directory ends the run of [main]. *)
Example directory_candidate_ends_run :
  main alice_env
    (with_node (lit "sample_inputs/cv_alice.txt")
       (Unopenable (is_a_directory (lit "sample_inputs/cv_alice.txt"))) alice_world)
  = Raise (is_a_directory (lit "sample_inputs/cv_alice.txt"))
      (w_print msg_start
         (with_node (lit "sample_inputs/cv_alice.txt")
            (Unopenable (is_a_directory (lit "sample_inputs/cv_alice.txt"))) alice_world)).
Proof. vm_compute. reflexivity. Qed.

(** So does one that is not UTF-8. *)
Example undecodable_candidate_ends_run :
  main alice_env (with_node (lit "sample_inputs/cv_alice.txt") Undecodable alice_world)
  = Raise decode_error
      (w_print msg_start
         (with_node (lit "sample_inputs/cv_alice.txt") Undecodable alice_world)).
Proof. vm_compute. reflexivity. Qed.

Lemma rstrip_prefix (s : pystr) : exists b, s = rstrip s ++ b.
Proof.
  induction s as [|c s [b Hb]]; simpl; [exists []; reflexivity|].
  destruct (rstrip s) as [|r rs] eqn:Hr.
  - destruct (isspace c); [exists (c :: s); reflexivity | exists s; reflexivity].
  - exists b. simpl. f_equal. exact Hb.
Qed.

Lemma in_strip (x : N) (s : pystr) : In x (strip s) -> In x s.
Proof.
  unfold strip. intros H.
  destruct (lstrip_suffix s) as [a [_ Ha]]. destruct (rstrip_prefix (lstrip s)) as [b Hb].
  rewrite Ha, Hb. apply in_or_app. right. apply in_or_app. left. exact H.
Qed.

Lemma not_in_by_eval (x : N) (s : pystr) : existsb (N.eqb x) s = false -> ~ In x s.
Proof.
  intros H Hin.
  assert (Ht : existsb (N.eqb x) s = true).
  { apply existsb_exists. exists x. split; [exact Hin | apply N.eqb_refl]. }
  congruence.
Qed.

(** The prompt has no carriage return that its texts do not have. *)
Lemma prompt_no_cr (jd cv : pystr) :
  ~ In 13 jd -> ~ In 13 cv -> ~ In 13 (strip (prompt_text jd cv)).
Proof.
  intros Hjd Hcv H. apply in_strip in H. rewrite prompt_text_split in H.
  repeat (apply in_app_or in H; destruct H as [H | H];
          [first [exact (Hjd H) | exact (Hcv H)
                 | revert H; apply not_in_by_eval; vm_compute; reflexivity]|]).
  revert H. apply not_in_by_eval. vm_compute. reflexivity.
Qed.

(** X9.  Reading the prompt file back.  For texts that can be encoded, what
    [izveidot_promptu] returns is not empty and is what it wrote, so
    [nolasit_failu] on prompt.md gives that string as text mode reads it:
    the very string when the texts hold no carriage return, and otherwise
    the string with its carriage returns turned into line feeds. *)
Theorem prompt_file_reads_back (jd cv : pystr) (w : world) :
  utf8 jd = true -> utf8 cv = true -> writable w (lit "prompt.md") = true ->
  exists p w1,
    izveidot_promptu jd cv w = Return p w1
    /\ p <> []
    /\ nolasit_failu (lit "prompt.md") w1 = Return (loaded p) w1
    /\ (~ In 13 jd -> ~ In 13 cv -> loaded p = p).
Proof.
  intros Hjd Hcv Hw. eexists _, _.
  split; [apply izveidot_promptu_eq; assumption|]. split; [|split].
  - rewrite strip_prompt_text. intros H. apply app_eq_nil in H. destruct H as [H _].
    vm_compute in H. discriminate.
  - apply nolasit_failu_present. simpl. apply lookup_insert_eq.
  - intros Hnj Hnc. unfold loaded.
    rewrite universal_newlines_id by (apply prompt_no_cr; assumption).
    apply strip_idem.
Qed.

Lemma prompt_file_reads_back_witness :
  exists p w1,
    izveidot_promptu (lit "JD") (lit "3 years Go") alice_world = Return p w1
    /\ p <> []
    /\ nolasit_failu (lit "prompt.md") w1 = Return (loaded p) w1
    /\ (~ In 13 (lit "JD") -> ~ In 13 (lit "3 years Go") -> loaded p = p).
Proof.
  apply (prompt_file_reads_back (lit "JD") (lit "3 years Go") alice_world).
  - vm_compute. reflexivity.
  - vm_compute. reflexivity.
  - vm_compute. reflexivity.
Defined.

(** A job description with the line ends of three systems does not read
    back as it was written. *)
Example crlf_prompt_reads_back_changed :
  exists p w1,
    izveidot_promptu crlf_text (lit "cv") alice_world = Return p w1
    /\ nolasit_failu (lit "prompt.md") w1 = Return (loaded p) w1
    /\ loaded p <> p
    /\ substring (lit "a" ++ NL ++ lit "b" ++ NL ++ lit "c" ++ NL ++ lit "d") (loaded p).
Proof.
  eexists _, _. split; [vm_compute; reflexivity|].
  split; [vm_compute; reflexivity|]. split.
  - vm_compute. discriminate.
  - apply contains_spec. vm_compute. reflexivity.
Qed.

(** ** Runs in which no candidate has text *)

Lemma for_each_skips (E : Env) (jd : pystr) (cvs : list pystr) (w : world) :
  (forall cv, In cv cvs ->
              exists c, fs w !! cv_cels cv = Some (File c) /\ strip c = []) ->
  exists w',
    for_each cvs (main_cv E jd) w = Return tt w'
    /\ fs w' = fs w
    /\ written w' = written w
    /\ calls w' = calls w
    /\ console w' = console w ++ List.map msg_skip cvs.
Proof.
  revert w. induction cvs as [|cv cvs IH]; intros w H.
  - exists w. repeat split. simpl. rewrite app_nil_r. reflexivity.
  - destruct (H cv (or_introl eq_refl)) as [c [Hc Hs]].
    cbn [for_each]. unfold bind. rewrite (main_cv_skip E jd cv c w Hc Hs).
    destruct (IH (w_print (msg_skip cv) w)) as [w' [Hrun [Hfs [Hwr [Hrq Hco]]]]].
    { intros x Hx. apply H. right. exact Hx. }
    exists w'. split; [exact Hrun|]. repeat split; try assumption.
    rewrite Hco. simpl. rewrite <- app_assoc. reflexivity.
Qed.

(** X10.  With a job description and candidates that all lack text (or no
    candidate at all), the run ends normally without writing a file or
    calling the completion client; it prints the opening line, one warning per
    candidate in the order of the glob, and the closing line that says all
    CVs were evaluated. *)
Theorem main_without_candidate_text (E : Env) (w : world) (jdc : pystr) :
  fs w !! lit "sample_inputs/jd.txt" = Some (File jdc) ->
  strip jdc <> [] ->
  (forall cv, In cv (glob_cv (listing w)) ->
              exists c, fs w !! cv_cels cv = Some (File c) /\ strip c = []) ->
  exists w',
    main E w = Return tt w'
    /\ fs w' = fs w
    /\ written w' = written w
    /\ calls w' = calls w
    /\ console w'
       = console w ++ [msg_start] ++ List.map msg_skip (glob_cv (listing w)) ++ [msg_done].
Proof.
  intros Hjd Hs Hall.
  destruct (for_each_skips E (loaded jdc) (glob_cv (listing w)) (w_print msg_start w) Hall)
    as [w1 [Hrun [Hfs [Hwr [Hrq Hco]]]]].
  eexists. split.
  - rewrite (main_with_jd E jdc w Hjd Hs). unfold bind. rewrite Hrun. reflexivity.
  - simpl. rewrite Hfs, Hwr, Hrq, Hco. repeat split. simpl.
    rewrite <- !app_assoc. reflexivity.
Qed.

Lemma main_without_candidate_text_witness :
  exists w',
    main alice_env idle_world = Return tt w'
    /\ fs w' = fs idle_world
    /\ written w' = written idle_world
    /\ calls w' = calls idle_world
    /\ console w'
       = console idle_world ++ [msg_start]
         ++ List.map msg_skip (glob_cv (listing idle_world)) ++ [msg_done].
Proof.
  apply (main_without_candidate_text alice_env idle_world
           (lit "Senior backend engineer, 5 years Go")).
  - vm_compute. reflexivity.
  - vm_compute. discriminate.
  - intros cv H. vm_compute in H. destruct H as [<- | [<- | []]].
    + exists []. split; vm_compute; reflexivity.
    + exists blank. split; vm_compute; reflexivity.
Defined.

(** ** What a run may touch *)

Lemma prompt_md_produced : ~ other_paths (lit "prompt.md").
Proof. intros H. apply H. left. reflexivity. Qed.

Lemma json_fails_produced (cv : pystr) : ~ other_paths (json_fails cv).
Proof.
  intros H. apply H. right. unfold is_output_path, json_fails.
  apply startswith_spec. eexists. reflexivity.
Qed.

Lemma md_fails_produced (cv : pystr) : ~ other_paths (md_fails cv).
Proof.
  intros H. apply H. right. unfold is_output_path, md_fails.
  apply startswith_spec. eexists. reflexivity.
Qed.

Lemma keeps_others_main_cv (E : Env) (jd cv : pystr) : keeps other_paths (main_cv E jd cv).
Proof.
  unfold main_cv. apply keeps_bind; [apply keeps_nolasit_failu | intros t].
  destruct (str_not t); [apply keeps_print|].
  apply keeps_bind; [apply keeps_print | intros _].
  apply keeps_bind.
  { unfold izveidot_promptu. apply keeps_bind.
    - apply keeps_write, prompt_md_produced.
    - intros; apply keeps_ret. }
  intros p. apply keeps_reports; [apply json_fails_produced | apply md_fails_produced].
Qed.

(** X11.  A run, however it ends, leaves every file alone that is neither
    prompt.md nor under outputs/: the inputs are never changed and nothing
    is created elsewhere. *)
Theorem main_touches_only_its_outputs (E : Env) (w : world) (p : pystr) :
  p <> lit "prompt.md" ->
  is_output_path p = false ->
  fs (out_world (main E w)) !! p = fs w !! p.
Proof.
  intros Hp Ho.
  assert (Hk : keeps other_paths (main E)).
  { unfold main. apply keeps_bind; [apply keeps_print | intros _].
    apply keeps_bind; [apply keeps_nolasit_failu | intros t].
    destruct (str_not t); [apply keeps_print|].
    apply keeps_bind; [intros w0; apply same_on_refl | intros cvs].
    apply keeps_bind; [|intros _; apply keeps_print].
    apply keeps_for_each. intros cv. apply keeps_others_main_cv. }
  apply Hk. intros [H | H]; [contradiction | congruence].
Qed.

Lemma main_touches_only_its_outputs_witness :
  fs (out_world (main null_env alice_world)) !! lit "sample_inputs/cv_alice.txt"
  = fs alice_world !! lit "sample_inputs/cv_alice.txt".
Proof.
  apply (main_touches_only_its_outputs null_env alice_world
           (lit "sample_inputs/cv_alice.txt")).
  - intros H. vm_compute in H. discriminate.
  - vm_compute. reflexivity.
Defined.

(** ** Calls of the completion client *)

Section Calls.
Local Open Scope nat_scope.

Lemma calls_weaken {A} (n k : nat) (m : M A) :
  calls_at_most n m -> n <= k -> calls_at_most k m.
Proof. intros H Hle w. specialize (H w). lia. Qed.

Lemma calls_ret {A} (a : A) : calls_at_most 0 (ret a).
Proof. intros w. simpl. lia. Qed.

Lemma calls_raise {A} (e : exn) : calls_at_most 0 (@raise A e).
Proof. intros w. simpl. lia. Qed.

Lemma calls_print (s : pystr) : calls_at_most 0 (print s).
Proof. intros w. simpl. lia. Qed.

Lemma calls_write (path text : pystr) : calls_at_most 0 (write_file path text).
Proof.
  intros w. unfold write_file.
  destruct (fs w !! path) as [[| |]|]; try destruct (utf8 text); simpl; lia.
Qed.

Lemma calls_write_chunks (path : pystr) (chunks : list pystr) :
  calls_at_most 0 (write_chunks path chunks).
Proof.
  intros w. unfold write_chunks.
  destruct (fs w !! path) as [[| |]|]; try destruct (snd (encoded_prefix chunks));
    simpl; lia.
Qed.

Lemma calls_read (path : pystr) : calls_at_most 0 (read_file path).
Proof. intros w. unfold read_file. destruct (fs w !! path) as [[| |]|]; simpl; lia. Qed.

Lemma calls_bind {A B} (n1 n2 : nat) (m : M A) (k : A -> M B) :
  calls_at_most n1 m -> (forall a, calls_at_most n2 (k a)) ->
  calls_at_most (n1 + n2) (bind m k).
Proof.
  intros Hm Hk w. unfold bind. specialize (Hm w).
  destruct (m w) as [a w'|e w']; simpl in Hm.
  - specialize (Hk a w'). lia.
  - simpl. lia.
Qed.

Lemma calls_try {A} (n1 n2 : nat) (body : M A) (C : exn -> bool) (handler : exn -> M A) :
  calls_at_most n1 body -> (forall e, calls_at_most n2 (handler e)) ->
  calls_at_most (n1 + n2) (try_except body C handler).
Proof.
  intros Hm Hk w. unfold try_except. specialize (Hm w).
  destruct (body w) as [a w'|e w']; simpl in Hm; [simpl; lia|].
  destruct (C e); [|simpl; lia]. specialize (Hk e w'). lia.
Qed.

Lemma calls_for_each {A} (n : nat) (l : list A) (body : A -> M unit) :
  (forall x, calls_at_most n (body x)) -> calls_at_most (length l * n) (for_each l body).
Proof.
  intros Hb. induction l as [|x l IH]; cbn [for_each length Nat.mul].
  - apply calls_ret.
  - apply calls_bind; [apply Hb | intros _; exact IH].
Qed.

Variable E : Env.

Lemma calls_nolasit_failu (cels : pystr) : calls_at_most 0 (nolasit_failu cels).
Proof.
  unfold nolasit_failu. apply (calls_try 0 0).
  - apply (calls_bind 0 0); [apply calls_read | intros; apply calls_ret].
  - intros e. apply (calls_bind 0 0); [apply calls_print | intros; apply calls_ret].
Qed.

Lemma calls_izsaukt_modeli (prompt : pystr) : calls_at_most 1 (izsaukt_modeli E prompt).
Proof.
  unfold izsaukt_modeli. apply (calls_bind 0 1).
  { unfold new_client. destruct (OpenAI_new E); [apply calls_raise | apply calls_ret]. }
  intros _. apply (calls_try 1 0).
  - apply (calls_bind 1 0).
    { intros w. unfold chat_completions_create.
      destruct (completions_create E (calls w) (model_request prompt)); simpl; lia. }
    intros r. apply (calls_bind 0 0).
    { unfold first_choice_content.
      destruct (choices r) as [|[t|] ?];
        [apply calls_raise | apply calls_ret | apply calls_ret]. }
    intros v. apply (calls_try 0 0).
    + unfold loads. destruct v; try apply calls_raise.
      destruct (json_loads E s); [apply calls_ret | apply calls_raise].
    + intros e. apply (calls_bind 0 0); [apply calls_print | intros; apply calls_ret].
  - intros e. apply (calls_bind 0 0); [apply calls_print | intros; apply calls_ret].
Qed.

Lemma calls_genereet_parskatu (dati : value) (fails : pystr) :
  calls_at_most 0 (genereet_parskatu E dati fails).
Proof.
  unfold genereet_parskatu.
  apply (calls_bind 0 0); [intros w; simpl; lia | intros datums].
  assert (Hget : forall k dflt, calls_at_most 0 (get dati k dflt)).
  { intros k dflt. unfold get. destruct dati; first [apply calls_raise | apply calls_ret]. }
  assert (Hit : forall v, calls_at_most 0 (iterate v)).
  { intros v. unfold iterate. destruct (py_iter v); [apply calls_ret | apply calls_raise]. }
  repeat first
    [ apply (calls_bind 0 0); [apply Hget | intros ?]
    | apply (calls_bind 0 0); [apply Hit | intros ?] ].
  apply calls_write.
Qed.

Lemma calls_main_cv (jd cv : pystr) : calls_at_most 1 (main_cv E jd cv).
Proof.
  unfold main_cv. apply (calls_bind 0 1); [apply calls_nolasit_failu | intros t].
  destruct (str_not t); [apply (calls_weaken 0); [apply calls_print | lia]|].
  apply (calls_bind 0 1); [apply calls_print | intros _].
  apply (calls_bind 0 1).
  { unfold izveidot_promptu.
    apply (calls_bind 0 0); [apply calls_write | intros; apply calls_ret]. }
  intros p. apply (calls_bind 1 0); [apply calls_izsaukt_modeli | intros r].
  apply (calls_bind 0 0); [apply calls_write_chunks | intros _].
  apply (calls_bind 0 0); [apply calls_genereet_parskatu | intros _].
  apply calls_print.
Qed.

(** X12.  A run calls the completion client at most once for each
    candidate the glob found, however it ends: the program itself never
    repeats a call, and a candidate without text costs none.  (The requests
    the client sends for one call are the client's matter and are not
    counted.) *)
Theorem main_calls_client_at_most_once_per_candidate (w : world) :
  calls w <= calls (out_world (main E w))
  /\ calls (out_world (main E w)) <= calls w + length (glob_cv (listing w)).
Proof.
  remember (main E w) as o eqn:Ho.
  unfold main in Ho. unfold bind at 1 2 in Ho. unfold print at 1 in Ho.
  change (lit "🚀 AI darbināts CV vērtētājs tiek palaists..." ++ NL) with msg_start in Ho.
  pose proof (calls_nolasit_failu (lit "sample_inputs/jd.txt") (w_print msg_start w)) as Hn.
  assert (Hls : listing (out_world (nolasit_failu (lit "sample_inputs/jd.txt")
                                      (w_print msg_start w))) = listing w).
  { unfold nolasit_failu, try_except, bind, read_file. cbn [fs w_print].
    destruct (fs w !! lit "sample_inputs/jd.txt") as [[c| |e]|]; try reflexivity.
    destruct (is_class FileNotFoundError e); reflexivity. }
  destruct (nolasit_failu (lit "sample_inputs/jd.txt") (w_print msg_start w))
    as [t w1|e w1]; simpl in Hn, Hls; [|subst o; simpl; lia].
  destruct (str_not t); [subst o; simpl; lia|].
  unfold bind at 1 in Ho. unfold bind at 1 in Ho.
  pose proof (calls_for_each 1 (glob_cv (listing w1)) (main_cv E t) (calls_main_cv t) w1) as Hl.
  destruct (for_each (glob_cv (listing w1)) (main_cv E t) w1) as [[] w2|e w2];
    subst o; simpl in Hl |- *; rewrite Hls in Hl; lia.
Qed.
End Calls.

(** ** The prompt determines its texts *)

(** X13.  For one job description, two candidate texts give the same
    prompt exactly when they are equal up to white space at their end; for
    one candidate text, two job descriptions give the same prompt exactly
    when they are equal. *)
Theorem prompt_determines_its_texts (jd jd' cv cv' : pystr) :
  (strip (prompt_text jd cv) = strip (prompt_text jd cv') <-> rstrip cv = rstrip cv')
  /\ (strip (prompt_text jd cv) = strip (prompt_text jd' cv) <-> jd = jd').
Proof.
  split; split.
  - rewrite !strip_prompt_text. intros H.
    apply app_inv_head in H. apply app_inv_head in H.
    destruct (rstrip cv) as [|c r], (rstrip cv') as [|c' r'].
    + reflexivity.
    + exfalso. unfold prompt_mid in H. rewrite <- !app_assoc in H.
      do 2 apply app_inv_head in H. apply (f_equal (@length N)) in H.
      rewrite !length_app in H. simpl in H. lia.
    + exfalso. unfold prompt_mid in H. rewrite <- !app_assoc in H.
      do 2 apply app_inv_head in H. apply (f_equal (@length N)) in H.
      rewrite !length_app in H. simpl in H. lia.
    + apply app_inv_head in H. exact H.
  - intros H. rewrite !strip_prompt_text, H. reflexivity.
  - rewrite !strip_prompt_text. intros H.
    apply app_inv_head in H. apply app_inv_tail in H. exact H.
  - intros ->. reflexivity.
Qed.

(** ** What the report shows *)

(** X14.  A list section shows the placeholder line exactly when the loop
    found no item; an item always gets its bullet, be it the empty string. *)
Theorem bullets_placeholder_iff_no_item (E : Env) (items : list value) :
  bullets E items = lit "Nav norādīts." <-> items = [].
Proof.
  split.
  - destruct items as [|x items]; [reflexivity|]. intros H.
    vm_compute in H. discriminate.
  - intros ->. reflexivity.
Qed.

Lemma bullets_cons (E : Env) (x : value) (items : list value) :
  bullets E (x :: items)
  = lit "- " ++ fmt E x ++ NL
    ++ List.concat (List.map (fun s => lit "- " ++ fmt E s ++ NL) items).
Proof.
  unfold bullets. cbn [List.map List.concat].
  change (lit "- ") with [45; 32]. cbn [app str_not]. rewrite <- !app_assoc.
  reflexivity.
Qed.

Lemma bullets_concat (E : Env) (items : list value) :
  items <> [] ->
  bullets E items = List.concat (List.map (fun s => lit "- " ++ fmt E s ++ NL) items).
Proof.
  destruct items as [|x items]; [contradiction|]. intros _.
  rewrite bullets_cons. cbn [List.map List.concat]. rewrite <- !app_assoc. reflexivity.
Qed.

(** X15.  A list field that holds a string is iterated character by
    character: the section of the report that [genereet_parskatu] writes
    has one bullet for each character of the string. *)
Theorem string_field_renders_per_character (E : Env) (d : list (pystr * value))
        (fails : pystr) (w : world) (s : pystr) (ms : list value) :
  dict_lookup (lit "strengths") d = Some (VStr s) ->
  s <> [] ->
  field_items d (lit "missing_requirements") = Some ms ->
  genereet_parskatu E (VDict d) fails w
  = write_file fails
      (parskats_stripped (strftime_now E (clock w))
         (fmt E (dict_get d (lit "match_score") (VStr (lit "N/A"))))
         (fmt E (dict_get d (lit "summary") (VStr (lit "Nav kopsavilkuma."))))
         (List.concat (List.map (fun c => lit "- " ++ [c] ++ NL) s))
         (bullets E ms)
         (fmt E (dict_get d (lit "verdict") (VStr (lit "Nav sprieduma.")))))
      (w_tick w).
Proof.
  intros Hs Hne Hm.
  assert (Hss : field_items d (lit "strengths")
                = Some (List.map (fun c => VStr [c]) s)).
  { unfold field_items, dict_get. rewrite Hs. reflexivity. }
  rewrite (genereet_parskatu_dict E d fails w _ ms Hss Hm), strip_parskats_text.
  rewrite bullets_concat by (destruct s; [contradiction | discriminate]).
  rewrite List.map_map. reflexivity.
Qed.

Lemma string_field_renders_per_character_witness :
  genereet_parskatu alice_env (VDict [(lit "strengths", VStr (lit "Go"))])
    (lit "outputs/cv_alice_report.md") alice_world
  = write_file (lit "outputs/cv_alice_report.md")
      (parskats_stripped (strftime_now alice_env (clock alice_world))
         (fmt alice_env
            (dict_get [(lit "strengths", VStr (lit "Go"))] (lit "match_score")
               (VStr (lit "N/A"))))
         (fmt alice_env
            (dict_get [(lit "strengths", VStr (lit "Go"))] (lit "summary")
               (VStr (lit "Nav kopsavilkuma."))))
         (List.concat (List.map (fun c => lit "- " ++ [c] ++ NL) (lit "Go")))
         (bullets alice_env [])
         (fmt alice_env
            (dict_get [(lit "strengths", VStr (lit "Go"))] (lit "verdict")
               (VStr (lit "Nav sprieduma.")))))
      (w_tick alice_world).
Proof.
  apply (string_field_renders_per_character alice_env
           [(lit "strengths", VStr (lit "Go"))] (lit "outputs/cv_alice_report.md")
           alice_world (lit "Go") []).
  - vm_compute. reflexivity.
  - vm_compute. discriminate.
  - vm_compute. reflexivity.
Defined.

Lemma split_lines_no_nl (l : pystr) : ~ In 10 l -> split_lines l = [l].
Proof.
  induction l as [|c l IH]; intros H; [reflexivity|].
  cbn [split_lines]. rewrite IH by (intros Hin; apply H; right; exact Hin).
  destruct (c =? 10) eqn:Hc; [|reflexivity].
  apply N.eqb_eq in Hc. exfalso. apply H. left. exact Hc.
Qed.

Lemma split_lines_join (x : pystr) (ls : list pystr) :
  split_lines (join NL (x :: ls)) = List.concat (List.map split_lines (x :: ls)).
Proof.
  revert x. induction ls as [|y ls IH]; intros x.
  - simpl. rewrite app_nil_r. reflexivity.
  - change (join NL (x :: y :: ls)) with (x ++ NL ++ join NL (y :: ls)).
    rewrite split_lines_app_nl, IH. reflexivity.
Qed.

Lemma in_split_lines_join (l x : pystr) (ls : list pystr) :
  In x ls -> In l (split_lines x) -> In l (split_lines (join NL ls)).
Proof.
  intros Hx Hl. destruct ls as [|y ls]; [contradiction|].
  rewrite split_lines_join. apply in_concat. exists (split_lines x).
  split; [apply in_map; exact Hx | exact Hl].
Qed.

Lemma parskats_stripped_join (a b c d e f : pystr) :
  parskats_stripped a b c d e f
  = join NL
      [lit "# CV Atbilstības Pārskats"; [];
       lit "**Datums:** " ++ a;
       lit "**Atbilstības punktu skaits:** " ++ b; [];
       lit "---"; [];
       lit "### 📝 Kopsavilkums"; c; [];
       lit "---"; [];
       lit "### ✅ Stiprās puses"; d; [];
       lit "---"; [];
       lit "### ⚠️ Trūkstošās prasības"; e; [];
       lit "---"; [];
       lit "### 💡 Spriedums";
       lit "**" ++ f ++ lit "**"].
Proof.
  unfold parskats_stripped. cbn [join]. rewrite <- !app_assoc, !app_nil_l. reflexivity.
Qed.

Lemma bullets_line (E : Env) (items : list value) (s : pystr) :
  In (VStr s) items -> ~ In 10 s -> In (lit "- " ++ s) (split_lines (bullets E items)).
Proof.
  intros Hin Hs. rewrite bullets_concat by (destruct items; [contradiction | discriminate]).
  induction items as [|x items IH]; [contradiction|].
  cbn [List.map List.concat]. rewrite <- !app_assoc.
  rewrite (app_assoc (lit "- ")), split_lines_app_nl. apply in_or_app.
  destruct Hin as [-> | Hin].
  - left. change (fmt E (VStr s)) with s. rewrite split_lines_no_nl; [left; reflexivity|].
    intros H. apply in_app_or in H. destruct H as [H | H]; [|exact (Hs H)].
    vm_compute in H. destruct H as [H | [H | []]]; discriminate.
  - right. apply IH. exact Hin.
Qed.

(** X16.  The report shows the result: for a dictionary that renders, the
    report that [genereet_parskatu] writes has the line of the score and
    the line of the verdict (when their texts hold no newline), and every
    string among the strengths and the missing requirements has its own
    line [- item]. *)
Theorem report_shows_the_result (E : Env) (d : list (pystr * value)) (fails : pystr)
        (w : world) (ss ms : list value) :
  field_items d (lit "strengths") = Some ss ->
  field_items d (lit "missing_requirements") = Some ms ->
  exists report,
    genereet_parskatu E (VDict d) fails w = write_file fails report (w_tick w)
    /\ (forall score,
           fmt E (dict_get d (lit "match_score") (VStr (lit "N/A"))) = score ->
           ~ In 10 score ->
           In (lit "**Atbilstības punktu skaits:** " ++ score) (split_lines report))
    /\ (forall verdict,
           fmt E (dict_get d (lit "verdict") (VStr (lit "Nav sprieduma."))) = verdict ->
           ~ In 10 verdict ->
           In (lit "**" ++ verdict ++ lit "**") (split_lines report))
    /\ (forall s, In (VStr s) ss \/ In (VStr s) ms -> ~ In 10 s ->
                  In (lit "- " ++ s) (split_lines report)).
Proof.
  intros Hss Hms. eexists. split.
  - rewrite (genereet_parskatu_dict E d fails w ss ms Hss Hms), strip_parskats_text.
    reflexivity.
  - rewrite parskats_stripped_join. split; [|split].
    + intros score <- Hn.
      eapply in_split_lines_join; [do 3 right; left; reflexivity|].
      rewrite split_lines_no_nl; [left; reflexivity|].
      intros H. apply in_app_or in H. destruct H as [H | H]; [|exact (Hn H)].
      vm_compute in H. repeat (destruct H as [H | H]; [discriminate|]). exact H.
    + intros verdict <- Hn.
      eapply in_split_lines_join; [do 23 right; left; reflexivity|].
      rewrite split_lines_no_nl; [left; reflexivity|].
      intros H. apply in_app_or in H. destruct H as [H | H].
      { vm_compute in H. repeat (destruct H as [H | H]; [discriminate|]). exact H. }
      apply in_app_or in H. destruct H as [H | H]; [exact (Hn H)|].
      vm_compute in H. repeat (destruct H as [H | H]; [discriminate|]). exact H.
    + intros s [Hin | Hin] Hn.
      * eapply in_split_lines_join; [do 13 right; left; reflexivity|].
        apply bullets_line; assumption.
      * eapply in_split_lines_join; [do 18 right; left; reflexivity|].
        apply bullets_line; assumption.
Qed.

Lemma report_shows_the_result_witness :
  exists report,
    genereet_parskatu alice_env alice_obj (lit "outputs/cv_alice_report.md") alice_world
    = write_file (lit "outputs/cv_alice_report.md") report (w_tick alice_world)
    /\ (forall score,
           fmt alice_env
             (dict_get
                (match alice_obj with VDict d => d | _ => [] end)
                (lit "match_score") (VStr (lit "N/A"))) = score ->
           ~ In 10 score ->
           In (lit "**Atbilstības punktu skaits:** " ++ score) (split_lines report))
    /\ (forall verdict,
           fmt alice_env
             (dict_get
                (match alice_obj with VDict d => d | _ => [] end)
                (lit "verdict") (VStr (lit "Nav sprieduma."))) = verdict ->
           ~ In 10 verdict ->
           In (lit "**" ++ verdict ++ lit "**") (split_lines report))
    /\ (forall s,
           In (VStr s) [VStr (lit "Go expertise")]
           \/ In (VStr s) [VStr (lit "5 years seniority")] ->
           ~ In 10 s -> In (lit "- " ++ s) (split_lines report)).
Proof.
  apply (report_shows_the_result alice_env
           (match alice_obj with VDict d => d | _ => [] end)
           (lit "outputs/cv_alice_report.md") alice_world
           [VStr (lit "Go expertise")] [VStr (lit "5 years seniority")]).
  - vm_compute. reflexivity.
  - vm_compute. reflexivity.
Defined.

(** ** An exception in a turn *)

(** X17.  The loop of [main] has no handler: when the turn of a candidate
    raises, [main] raises the same exception in the world the turn left,
    so the candidates after it are not read and get no file, and the
    closing line is not printed. *)
Theorem exception_in_turn_ends_run (E : Env) (w : world) (jdc : pystr)
        (pre post : list pystr) (cv : pystr) (w1 w2 : world) (e : exn) :
  fs w !! lit "sample_inputs/jd.txt" = Some (File jdc) ->
  strip jdc <> [] ->
  glob_cv (listing w) = pre ++ cv :: post ->
  for_each pre (main_cv E (loaded jdc)) (w_print msg_start w) = Return tt w1 ->
  main_cv E (loaded jdc) cv w1 = Raise e w2 ->
  main E w = Raise e w2.
Proof.
  intros Hjd Hs Hglob Hpre Hcv.
  rewrite (main_with_jd E jdc w Hjd Hs), Hglob. unfold bind at 1.
  rewrite for_each_app. unfold bind at 1. rewrite Hpre.
  cbn [for_each]. unfold bind at 1. rewrite Hcv. reflexivity.
Qed.

Lemma exception_in_turn_ends_run_witness :
  main null_env mixed_world
  = Raise (Exn TypeError (lit "'NoneType' object is not iterable"))
      (out_world
         (main_cv null_env (loaded (lit "Senior backend engineer, 5 years Go"))
            (lit "cv_alice.txt") (w_print msg_start mixed_world))).
Proof.
  apply (exception_in_turn_ends_run null_env mixed_world
           (lit "Senior backend engineer, 5 years Go") []
           [lit "cv_empty.txt"; lit "cv_blank.txt"; lit "cv_bob.txt"]
           (lit "cv_alice.txt") (w_print msg_start mixed_world)).
  - vm_compute. reflexivity.
  - vm_compute. discriminate.
  - vm_compute. reflexivity.
  - reflexivity.
  - vm_compute. reflexivity.
Defined.

(** ** Candidates that cannot be read *)

(** X18.  A candidate that is not a text file ends the run: when the glob
    finds an entry that is not UTF-8, or one that cannot be opened (a
    directory, a file without permission), [nolasit_failu] raises, nothing
    handles it, and [main] raises in turn.  With only candidates without
    text before it, nothing was written and the client was not called;
    the candidates after it are not read. *)
Theorem unreadable_candidate_ends_run (E : Env) (w : world) (jdc : pystr)
        (pre post : list pystr) (cv : pystr) (n : node) (e : exn) :
  fs w !! lit "sample_inputs/jd.txt" = Some (File jdc) ->
  strip jdc <> [] ->
  glob_cv (listing w) = pre ++ cv :: post ->
  (forall x, In x pre ->
             exists c, fs w !! cv_cels x = Some (File c) /\ strip c = []) ->
  fs w !! cv_cels cv = Some n ->
  (n = Undecodable /\ e = decode_error)
  \/ (n = Unopenable e /\ is_class FileNotFoundError e = false) ->
  exists w',
    main E w = Raise e w'
    /\ fs w' = fs w
    /\ written w' = written w
    /\ calls w' = calls w
    /\ console w' = console w ++ [msg_start] ++ List.map msg_skip pre.
Proof.
  intros Hjd Hs Hglob Hpre Hcv Hn.
  destruct (for_each_skips E (loaded jdc) pre (w_print msg_start w) Hpre)
    as [w1 [Hrun [Hfs [Hwr [Hca Hco]]]]].
  assert (Hturn : main_cv E (loaded jdc) cv w1 = Raise e w1).
  { unfold main_cv, bind. destruct Hn as [[-> ->] | [-> He]].
    - rewrite nolasit_failu_undecodable; [reflexivity|]. rewrite Hfs. exact Hcv.
    - rewrite (nolasit_failu_unopenable _ e), He; [reflexivity|]. rewrite Hfs. exact Hcv. }
  exists w1. split.
  - rewrite (main_with_jd E jdc w Hjd Hs), Hglob. unfold bind at 1.
    rewrite for_each_app. unfold bind at 1. rewrite Hrun.
    cbn [for_each]. unfold bind at 1. rewrite Hturn. reflexivity.
  - rewrite Hfs, Hwr, Hca, Hco. simpl. rewrite <- !app_assoc. repeat split.
Qed.

Lemma unreadable_candidate_ends_run_witness :
  exists w',
    main alice_env dir_world
    = Raise (is_a_directory (lit "sample_inputs/cv_alice.txt")) w'
    /\ fs w' = fs dir_world
    /\ written w' = written dir_world
    /\ calls w' = calls dir_world
    /\ console w' = console dir_world ++ [msg_start] ++ List.map msg_skip [].
Proof.
  apply (unreadable_candidate_ends_run alice_env dir_world
           (lit "Senior backend engineer, 5 years Go") [] [] (lit "cv_alice.txt")
           (Unopenable (is_a_directory (lit "sample_inputs/cv_alice.txt")))).
  - vm_compute. reflexivity.
  - vm_compute. discriminate.
  - vm_compute. reflexivity.
  - intros x [].
  - vm_compute. reflexivity.
  - right. split; reflexivity.
Defined.

(** ** Answers that cannot be encoded *)

Lemma encoded_prefix_cut (chunks : list pystr) :
  utf8 (List.concat chunks) = false ->
  snd (encoded_prefix chunks) = false
  /\ utf8 (fst (encoded_prefix chunks)) = true
  /\ exists rest,
      List.concat chunks = fst (encoded_prefix chunks) ++ rest /\ utf8 rest = false.
Proof.
  induction chunks as [|ch chunks IH]; simpl; [discriminate|].
  rewrite utf8_app. destruct (utf8 ch) eqn:Hch; simpl.
  - intros H. destruct (IH H) as [Hsnd [Hfst [rest [Hcat Hrest]]]].
    split; [exact Hsnd|]. split; [apply utf8_app_true; assumption|].
    exists rest. split; [|exact Hrest]. rewrite Hcat at 1. apply app_assoc.
  - intros _. split; [reflexivity|]. split; [reflexivity|].
    exists (ch ++ List.concat chunks). split; [reflexivity|].
    rewrite utf8_app, Hch. reflexivity.
Qed.

(** X19.  An answer whose JSON text holds a lone surrogate costs the
    candidate its report: [json.dump] raises [UnicodeEncodeError] part way,
    so the JSON file is left with the beginning of the text only, the
    report is not written, and the exception leaves the turn (and, the loop
    having no handler, ends the run). *)
Theorem unencodable_answer_cuts_json (E : Env) (jd cv c : pystr) (w w2 : world)
        (rezultats : value) :
  fs w !! cv_cels cv = Some (File c) ->
  strip c <> [] ->
  utf8 jd = true ->
  utf8 c = true ->
  outputs_writable w cv = true ->
  izsaukt_modeli E (strip (prompt_text jd (loaded c)))
    (w_prompted cv (strip (prompt_text jd (loaded c))) w) = Return rezultats w2 ->
  utf8 (json_dumps E rezultats) = false ->
  exists w' part rest,
    main_cv E jd cv w = Raise encode_error w'
    /\ json_dumps E rezultats = part ++ rest
    /\ utf8 part = true
    /\ utf8 rest = false
    /\ written w'
       = written w ++ [(lit "prompt.md", strip (prompt_text jd (loaded c)));
                       (json_fails cv, part)]
    /\ fs w' !! json_fails cv = Some (File part)
    /\ fs w' !! md_fails cv = fs w !! md_fails cv.
Proof.
  intros Hf Hs Hjd Hc Hout Hcall Hu.
  apply outputs_writable_spec in Hout. destruct Hout as [Hwp [Hwj _]].
  pose proof (izsaukt_modeli_world E (strip (prompt_text jd (loaded c)))
                (w_prompted cv (strip (prompt_text jd (loaded c))) w)) as Hw.
  rewrite Hcall in Hw. simpl in Hw. destruct Hw as [Hfs [Hwr _]].
  destruct (encoded_prefix_cut (json_dump_chunks E rezultats) Hu)
    as [Hsnd [Hfst [rest [Hcat Hrest]]]].
  assert (Hwj2 : fs w2 !! json_fails cv = fs w !! json_fails cv).
  { rewrite Hfs. apply lookup_insert_ne. intros H.
    apply (json_fails_not_prompt cv). symmetry. exact H. }
  exists (w_write (json_fails cv) (fst (encoded_prefix (json_dump_chunks E rezultats))) w2),
    (fst (encoded_prefix (json_dump_chunks E rezultats))), rest.
  split; [|split; [exact Hcat|split; [exact Hfst|split; [exact Hrest|split; [|split]]]]].
  - rewrite (main_cv_step E jd cv c w Hf Hs Hwp Hjd Hc). unfold bind at 1. rewrite Hcall.
    unfold bind at 1. unfold saglabat_json, write_chunks. rewrite Hsnd, Hwj2.
    unfold writable in Hwj.
    destruct (fs w !! json_fails cv) as [[| |]|]; [reflexivity | reflexivity | discriminate | reflexivity].
  - simpl. rewrite Hwr. simpl. rewrite <- !app_assoc. reflexivity.
  - simpl. apply lookup_insert_eq.
  - simpl. rewrite lookup_insert_ne by apply json_fails_ne_md_fails.
    rewrite Hfs. apply lookup_insert_ne. intros H.
    apply (md_fails_not_prompt cv). symmetry. exact H.
Qed.

Lemma unencodable_answer_cuts_json_witness :
  exists w' part rest,
    main_cv lone_env (lit "JD") (lit "cv_alice.txt") alice_world = Raise encode_error w'
    /\ json_dumps lone_env (VDict lone_obj) = part ++ rest
    /\ utf8 part = true
    /\ utf8 rest = false
    /\ written w'
       = written alice_world
         ++ [(lit "prompt.md",
              strip (prompt_text (lit "JD") (loaded (lit "3 years Go, led a team"))));
             (json_fails (lit "cv_alice.txt"), part)]
    /\ fs w' !! json_fails (lit "cv_alice.txt") = Some (File part)
    /\ fs w' !! md_fails (lit "cv_alice.txt")
       = fs alice_world !! md_fails (lit "cv_alice.txt").
Proof.
  apply (unencodable_answer_cuts_json lone_env (lit "JD") (lit "cv_alice.txt")
           (lit "3 years Go, led a team") alice_world
           (out_world
              (izsaukt_modeli lone_env
                 (strip (prompt_text (lit "JD") (loaded (lit "3 years Go, led a team"))))
                 (w_prompted (lit "cv_alice.txt")
                    (strip (prompt_text (lit "JD") (loaded (lit "3 years Go, led a team"))))
                    alice_world)))
           (VDict lone_obj)).
  - vm_compute. reflexivity.
  - vm_compute. discriminate.
  - vm_compute. reflexivity.
  - vm_compute. reflexivity.
  - vm_compute. reflexivity.
  - vm_compute. reflexivity.
  - vm_compute. reflexivity.
Defined.
